(** * WhatsApp session manager of the CRM back end

    A shallow embedding of [src/whatsappBaileys.ts] (the Baileys session
    manager), of the phone formatting it shares with the Z-API sender
    ([enviarMensagemWhatsApp]) and of the [mensagens.create] procedure of
    the RPC router, followed by the properties of the specification that
    concern them.  The Z-API sender itself and the stock, sale and user
    functions of [src/db.ts] are embedded after them, with the properties
    their code shows.

    Conventions.
    - A JavaScript string is a [string]: a sequence of bytes.  The only
      character class the code uses is [\D]; every byte of a non-ASCII
      character is a non-digit, so stripping bytes and stripping UTF-16
      code units leave the same ASCII digits behind.
    - [undefined] and [null] are [None].
    - The module-level variables [sock], [isConnected] and [qrCode] are
      fields of a record [World] that every operation threads; the record
      also holds what the code can observe of its environment (the
      credential directory, the sockets whose listeners are registered) and
      a log of the calls made to the outside.
    - What the environment answers (a thrown error, a returned message) is
      an argument of the operation that asks. *)

From Stdlib Require Import String Ascii List ZArith Bool Arith Lia.
From Stdlib Require Import DecimalString.
Import ListNotations.

Local Open Scope string_scope.
Local Open Scope list_scope.

(** ** JavaScript helpers *)

Module Js.

(** Truthiness of an optional string: [undefined], [null] and the empty
    string are falsy. *)
Definition truthy (v : option string) : bool :=
  match v with
  | Some EmptyString => false
  | Some _ => true
  | None => false
  end.

(** [v || d] on an optional string. *)
Definition or_else (v : option string) (d : string) : string :=
  match v with
  | Some EmptyString => d
  | Some s => s
  | None => d
  end.

(** [\d]: the ASCII digits [0-9]. *)
Definition is_digit (c : ascii) : bool :=
  let n := nat_of_ascii c in
  (48 <=? n)%nat && (n <=? 57)%nat.

(** [s.replace(/\D/g, "")]: every non-digit removed. *)
Fixpoint strip_non_digits (s : string) : string :=
  match s with
  | EmptyString => EmptyString
  | String c rest =>
      if is_digit c then String c (strip_non_digits rest)
      else strip_non_digits rest
  end.

(** [s.startsWith(p)]. *)
Definition startsWith (s p : string) : bool := String.prefix p s.

(** Every character of the string is a digit. *)
Fixpoint all_digits (s : string) : bool :=
  match s with
  | EmptyString => true
  | String c rest => is_digit c && all_digits rest
  end.

End Js.

(** ** Phone formatting

    Lines 91-97 of [enviarMensagemBaileys]; lines 29-34 of
    [enviarMensagemWhatsApp] compute the same value under the name
    [telefoneDestino]. *)

Module Telefone.

Definition telefoneFormatado (telefone : string) : string :=
  let digits := Js.strip_non_digits telefone in
  if negb (Js.startsWith digits "55") then "55" ++ digits else digits.

(** The Z-API sender, lines 29-34 of [enviarMensagemWhatsApp]. *)
Definition telefoneDestino (telefone : string) : string :=
  let digits := Js.strip_non_digits telefone in
  if negb (Js.startsWith digits "55") then "55" ++ digits else digits.

(** The recipient identifier handed to Baileys. *)
Definition jid (telefone : string) : string :=
  telefoneFormatado telefone ++ "@s.whatsapp.net".

End Telefone.

(** ** Effects: state, exceptions and the call log *)

(** A thrown value that is an object, as every [Error] is: the code only
    ever reads its [message], a string when present.  A thrown [null] or
    [undefined], on which reading [message] would itself throw, is not
    represented; what is proved of a [catch] clause is proved for thrown
    objects. *)
Record JsError := { message : option string }.

Inductive Completion (A : Type) : Type :=
| Returns (a : A)
| Throws (e : JsError).
Arguments Returns {A} a.
Arguments Throws {A} e.

(** A computation over a store [S] that returns or throws. *)
Definition Eff (S A : Type) : Type := S -> Completion A * S.

Module Eff.
Section Ops.
Context {S : Type}.

Definition ret {A} (a : A) : Eff S A := fun st => (Returns a, st).

Definition throw {A} (e : JsError) : Eff S A := fun st => (Throws e, st).

Definition bind {A B} (c : Eff S A) (k : A -> Eff S B) : Eff S B :=
  fun st =>
    match c st with
    | (Returns a, st') => k a st'
    | (Throws e, st') => (Throws e, st')
    end.

(** [try { c } catch (e) { h e }] *)
Definition try_catch {A} (c : Eff S A) (h : JsError -> Eff S A) : Eff S A :=
  fun st =>
    match c st with
    | (Returns a, st') => (Returns a, st')
    | (Throws e, st') => h e st'
    end.

Definition get : Eff S S := fun st => (Returns st, st).

Definition modify (f : S -> S) : Eff S unit := fun st => (Returns tt, f st).

(** What an external call answers: [Some e] when it throws [e]. *)
Definition external (answer : option JsError) : Eff S unit :=
  match answer with
  | Some e => throw e
  | None => ret tt
  end.

Definition when (b : bool) (c : Eff S unit) : Eff S unit :=
  if b then c else ret tt.
End Ops.
End Eff.

Declare Scope eff_scope.
Delimit Scope eff_scope with eff.
Notation "x <- c ;; k" := (Eff.bind c (fun x => k))
  (at level 61, c at next level, right associativity) : eff_scope.
Notation "c ;; k" := (Eff.bind c (fun _ => k))
  (at level 61, right associativity) : eff_scope.

(** ** The session manager, [src/whatsappBaileys.ts] *)

Module Baileys.

(** A socket returned by [makeWASocket], named by its creation rank. *)
Definition SockId := nat.

(** The session credentials the transport stores under [AUTH_DIR]. *)
Definition Creds := string.

(** [DisconnectReason.loggedOut] of the Baileys library. *)
Definition loggedOut : Z := 401.

(** *** Events of the transport *)

Inductive WAConnectionState := ConnOpen | ConnConnecting | ConnClose.

Record BoomOutput := { statusCode : Z }.
Record Boom := { output : option BoomOutput }.
Record LastDisconnect := { ld_error : option Boom }.

(** The payload of ["connection.update"]: the three fields the listener
    destructures. *)
Record ConnectionUpdate := {
  connection : option WAConnectionState;
  lastDisconnect : option LastDisconnect;
  qr : option string
}.

(** [(lastDisconnect?.error as Boom)?.output?.statusCode] *)
Definition disconnectStatusCode (update : ConnectionUpdate) : option Z :=
  match lastDisconnect update with
  | Some ld =>
      match ld_error ld with
      | Some boom =>
          match output boom with
          | Some out => Some (statusCode out)
          | None => None
          end
      | None => None
      end
  | None => None
  end.

(** [code !== DisconnectReason.loggedOut] *)
Definition not_loggedOut (code : option Z) : bool :=
  match code with
  | Some c => negb (Z.eqb c loggedOut)
  | None => true
  end.

(** *** The store *)

(** Calls that leave the module, in the order they are made;
    [CallInit] records an entry into [initWhatsAppConnection]. *)
Inductive Call :=
| CallInit
| CallMkdir
| CallMakeSocket (s : SockId)
| CallSendMessage (s : SockId) (jid text : string)
| CallLogout (s : SockId)
| CallRmAuth.

Record World := {
  (** [let sock] *)
  sock : option SockId;
  (** [let isConnected] *)
  isConnected : bool;
  (** [let qrCode] *)
  qrCode : option string;
  (** [AUTH_DIR]: [None] when the directory does not exist, [Some None]
      when it exists without credentials. *)
  authDir : option (option Creds);
  (** Sockets that were created and have not closed: their listeners are
      registered and the transport may still deliver their events. *)
  listening : list SockId;
  (** Rank of the next socket [makeWASocket] returns. *)
  nextSock : SockId;
  calls : list Call
}.

Definition set_sock (v : option SockId) (w : World) : World :=
  {| sock := v; isConnected := isConnected w; qrCode := qrCode w;
     authDir := authDir w; listening := listening w;
     nextSock := nextSock w; calls := calls w |}.

Definition set_isConnected (v : bool) (w : World) : World :=
  {| sock := sock w; isConnected := v; qrCode := qrCode w;
     authDir := authDir w; listening := listening w;
     nextSock := nextSock w; calls := calls w |}.

Definition set_qrCode (v : option string) (w : World) : World :=
  {| sock := sock w; isConnected := isConnected w; qrCode := v;
     authDir := authDir w; listening := listening w;
     nextSock := nextSock w; calls := calls w |}.

Definition set_authDir (v : option (option Creds)) (w : World) : World :=
  {| sock := sock w; isConnected := isConnected w; qrCode := qrCode w;
     authDir := v; listening := listening w;
     nextSock := nextSock w; calls := calls w |}.

Definition set_listening (v : list SockId) (w : World) : World :=
  {| sock := sock w; isConnected := isConnected w; qrCode := qrCode w;
     authDir := authDir w; listening := v;
     nextSock := nextSock w; calls := calls w |}.

Definition set_nextSock (v : SockId) (w : World) : World :=
  {| sock := sock w; isConnected := isConnected w; qrCode := qrCode w;
     authDir := authDir w; listening := listening w;
     nextSock := v; calls := calls w |}.

Definition log (c : Call) (w : World) : World :=
  {| sock := sock w; isConnected := isConnected w; qrCode := qrCode w;
     authDir := authDir w; listening := listening w;
     nextSock := nextSock w; calls := calls w ++ [c] |}.

(** The credentials a later [useMultiFileAuthState] would find. *)
Definition load (w : World) : option Creds :=
  match authDir w with
  | Some (Some c) => Some c
  | _ => None
  end.

Local Open Scope eff_scope.

(** *** [initWhatsAppConnection] *)

(** What the four fallible calls of the [try] block answer. *)
Record InitEnv := {
  mkdirSync_throws : option JsError;
  useMultiFileAuthState_throws : option JsError;
  fetchLatestBaileysVersion_throws : option JsError;
  makeWASocket_throws : option JsError
}.

Record InitResult := {
  init_success : bool;
  init_error : option string
}.

(** [makeWASocket(...)]: a fresh socket, which starts connecting. *)
Definition makeWASocket (env : InitEnv) : Eff World SockId :=
  Eff.external (makeWASocket_throws env) ;;
  w <- Eff.get ;;
  let s := nextSock w in
  Eff.modify (set_nextSock (S s)) ;;
  Eff.modify (log (CallMakeSocket s)) ;;
  Eff.ret s.

(** [sock.ev.on("connection.update", ...)] and
    [sock.ev.on("creds.update", saveCreds)]. *)
Definition register_listeners (s : SockId) : Eff World unit :=
  Eff.modify (fun w => set_listening (listening w ++ [s]) w).

Definition initWhatsAppConnection (env : InitEnv) : Eff World InitResult :=
  Eff.modify (log CallInit) ;;
  Eff.try_catch
    (w <- Eff.get ;;
     Eff.when (match authDir w with None => true | Some _ => false end)
       (Eff.modify (log CallMkdir) ;;
        Eff.external (mkdirSync_throws env) ;;
        Eff.modify (set_authDir (Some None))) ;;
     Eff.external (useMultiFileAuthState_throws env) ;;
     Eff.external (fetchLatestBaileysVersion_throws env) ;;
     s <- makeWASocket env ;;
     Eff.modify (set_sock (Some s)) ;;
     register_listeners s ;;
     Eff.ret {| init_success := true; init_error := None |})
    (fun error =>
       Eff.ret {| init_success := false; init_error := message error |}).

(** *** The ["connection.update"] listener, lines 35-63 *)

Definition onConnectionUpdate (env : InitEnv) (update : ConnectionUpdate)
  : Eff World unit :=
  Eff.when (Js.truthy (qr update))
    (Eff.modify (set_qrCode (qr update))) ;;
  match connection update with
  | Some ConnClose =>
      let shouldReconnect := not_loggedOut (disconnectStatusCode update) in
      Eff.modify (set_isConnected false) ;;
      Eff.when shouldReconnect
        (initWhatsAppConnection env ;; Eff.ret tt)
  | Some ConnOpen =>
      Eff.modify (set_isConnected true) ;;
      Eff.modify (set_qrCode None)
  | _ => Eff.ret tt
  end.

(** The ["creds.update"] listener, [saveCreds]: the credentials are written
    under [AUTH_DIR]; nothing is written when the directory is gone. *)
Definition onCredsUpdate (c : Creds) : Eff World unit :=
  Eff.modify (fun w =>
    match authDir w with
    | Some _ => set_authDir (Some (Some c)) w
    | None => w
    end).

(** *** [enviarMensagemBaileys] *)

Record MessageKey := { key_id : option string }.
Record WAMessage := { key : option MessageKey }.

(** What [sock.sendMessage] answers. *)
Inductive SendEnv :=
| SendResolves (result : option WAMessage)
| SendRejects (e : JsError).

Record SendResult := {
  success : bool;
  error : option string;
  messageId : option string
}.

(** [result?.key?.id] *)
Definition result_key_id (result : option WAMessage) : option string :=
  match result with
  | Some m =>
      match key m with
      | Some k => key_id k
      | None => None
      end
  | None => None
  end.

Definition sendMessage (env : SendEnv) (s : SockId) (jid text : string)
  : Eff World (option WAMessage) :=
  Eff.modify (log (CallSendMessage s jid text)) ;;
  match env with
  | SendResolves result => Eff.ret result
  | SendRejects e => Eff.throw e
  end.

Definition not_connected_error : string :=
  "WhatsApp não conectado. Escaneie o QR Code em Configurações.".

Definition enviarMensagemBaileys (env : SendEnv) (telefone mensagem : string)
  : Eff World SendResult :=
  Eff.try_catch
    (w <- Eff.get ;;
     match sock w, isConnected w with
     | Some s, true =>
         let telefoneFormatado := Telefone.telefoneFormatado telefone in
         let jid := (telefoneFormatado ++ "@s.whatsapp.net")%string in
         result <- sendMessage env s jid mensagem ;;
         Eff.ret {| success := true; error := None;
                    messageId :=
                      Some (Js.or_else (result_key_id result) "sent") |}
     | _, _ =>
         Eff.ret {| success := false; error := Some not_connected_error;
                    messageId := None |}
     end)
    (fun e =>
       Eff.ret {| success := false;
                  error := Some (Js.or_else (message e)
                                   "Erro ao enviar mensagem");
                  messageId := None |}).

(** *** [getWhatsAppStatus] *)

Record Status := {
  st_connected : bool;
  st_qrCode : option string
}.

Definition getWhatsAppStatus (w : World) : Status :=
  {| st_connected := isConnected w; st_qrCode := qrCode w |}.

(** *** [disconnectWhatsApp] *)

Record LogoutEnv := {
  logout_throws : option JsError;
  rmSync_throws : option JsError
}.

(** [sock.logout()]: when it resolves the transport has closed the socket,
    which delivers nothing afterwards. *)
Definition logout (env : LogoutEnv) (s : SockId) : Eff World unit :=
  Eff.modify (log (CallLogout s)) ;;
  Eff.external (logout_throws env) ;;
  Eff.modify (fun w =>
    set_listening (List.remove Nat.eq_dec s (listening w)) w).

Definition disconnectWhatsApp (env : LogoutEnv) : Eff World unit :=
  w <- Eff.get ;;
  match sock w with
  | Some s =>
      logout env s ;;
      Eff.modify (set_sock None) ;;
      Eff.modify (set_isConnected false) ;;
      Eff.modify (set_qrCode None) ;;
      w' <- Eff.get ;;
      Eff.when (match authDir w' with Some _ => true | None => false end)
        (Eff.modify (log CallRmAuth) ;;
         Eff.external (rmSync_throws env) ;;
         Eff.modify (set_authDir None))
  | None => Eff.ret tt
  end.

(** *** The manager as a transition system

    One action is one entry into the module: a call of an exported function
    or an event the transport delivers to a registered listener.  The body
    of each [async] function runs to completion within its action.

    The transport delivers events only for sockets that are still open; a
    socket that reports [connection: "close"] is closed and delivers nothing
    afterwards. *)

Inductive Action :=
| Connect (env : InitEnv)
| ConnectionUpdateOn (s : SockId) (update : ConnectionUpdate) (env : InitEnv)
| CredsUpdateOn (s : SockId) (c : Creds)
| SendMessage (env : SendEnv) (telefone mensagem : string)
| Disconnect (env : LogoutEnv).

Definition is_listening (s : SockId) (w : World) : bool :=
  existsb (Nat.eqb s) (listening w).

Definition closes (update : ConnectionUpdate) : bool :=
  match connection update with
  | Some ConnClose => true
  | _ => false
  end.

(** The socket [s] emits ["connection.update"]. *)
Definition deliver (s : SockId) (update : ConnectionUpdate) (env : InitEnv)
  (w : World) : World :=
  let w1 :=
    if closes update
    then set_listening (List.remove Nat.eq_dec s (listening w)) w
    else w in
  snd (onConnectionUpdate env update w1).

(** [None] when the action cannot happen in [w]. *)
Definition step (a : Action) (w : World) : option World :=
  match a with
  | Connect env => Some (snd (initWhatsAppConnection env w))
  | ConnectionUpdateOn s update env =>
      if is_listening s w then Some (deliver s update env w) else None
  | CredsUpdateOn s c =>
      if is_listening s w then Some (snd (onCredsUpdate c w)) else None
  | SendMessage env telefone mensagem =>
      Some (snd (enviarMensagemBaileys env telefone mensagem w))
  | Disconnect env => Some (snd (disconnectWhatsApp env w))
  end.

Fixpoint run (acts : list Action) (w : World) : option World :=
  match acts with
  | [] => Some w
  | a :: rest =>
      match step a w with
      | Some w' => run rest w'
      | None => None
      end
  end.

(** The module as it is loaded, over whatever [AUTH_DIR] holds from an
    earlier run of the process. *)
Definition boot (store : option (option Creds)) : World :=
  {| sock := None; isConnected := false; qrCode := None;
     authDir := store; listening := []; nextSock := 0; calls := [] |}.

(** Line 149: the module connects when it is loaded. *)
Definition startup (env : InitEnv) (store : option (option Creds)) : World :=
  snd (initWhatsAppConnection env (boot store)).

Definition is_Connect (a : Action) : bool :=
  match a with
  | Connect _ => true
  | _ => false
  end.

(** Every explicit [Connect] of the run happens while no socket is open. *)
Fixpoint connects_when_idle (acts : list Action) (w : World) : Prop :=
  match acts with
  | [] => True
  | a :: rest =>
      (is_Connect a = true -> listening w = []) /\
      match step a w with
      | Some w' => connects_when_idle rest w'
      | None => True
      end
  end.

(** Entries into [initWhatsAppConnection] so far. *)
Definition init_calls (w : World) : nat :=
  length (filter (fun c => match c with CallInit => true | _ => false end)
            (calls w)).

(** A manager at rest: disconnected, no socket open, and [n] entries into
    [initWhatsAppConnection] behind it. *)
Definition settled (n : nat) (w : World) : Prop :=
  isConnected w = false /\ listening w = [] /\ init_calls w = n.

(** An environment in which nothing throws. *)
Definition init_ok : InitEnv :=
  {| mkdirSync_throws := None; useMultiFileAuthState_throws := None;
     fetchLatestBaileysVersion_throws := None; makeWASocket_throws := None |}.

Definition logout_ok : LogoutEnv :=
  {| logout_throws := None; rmSync_throws := None |}.

(** An environment in which reading [AUTH_DIR] fails. *)
Definition auth_fails : InitEnv :=
  {| mkdirSync_throws := None;
     useMultiFileAuthState_throws := Some {| message := Some "EACCES" |};
     fetchLatestBaileysVersion_throws := None; makeWASocket_throws := None |}.

(** The three updates the listener reacts to. *)
Definition update_qr (code : string) : ConnectionUpdate :=
  {| connection := None; lastDisconnect := None; qr := Some code |}.

Definition update_open : ConnectionUpdate :=
  {| connection := Some ConnOpen; lastDisconnect := None; qr := None |}.

Definition update_close (code : Z) : ConnectionUpdate :=
  {| connection := Some ConnClose;
     lastDisconnect :=
       Some {| ld_error := Some {| output := Some {| statusCode := code |} |} |};
     qr := None |}.

(** [DisconnectReason.connectionLost] of the Baileys library. *)
Definition connectionLost : Z := 408.

End Baileys.

(** ** [mensagens.create] of the router *)

Module Routers.
Import Baileys.

Local Open Scope eff_scope.

Record Cliente := {
  cliente_id : Z;
  cliente_telefone : option string
}.

Inductive TipoMensagem := automatica | promocao | data_especial | manual.

Inductive StatusMensagem := pendente | enviada | erro | entregue | lida.

(** The validated input of the procedure. *)
Record MensagemInput := {
  clienteId : Z;
  tipo : TipoMensagem;
  conteudo : string
}.

(** The row handed to [db.createMensagem]: the input spread, then the three
    fields the procedure adds.  A date is a number of milliseconds. *)
Record InsertMensagem := {
  m_clienteId : Z;
  m_tipo : TipoMensagem;
  m_conteudo : string;
  m_status : StatusMensagem;
  m_dataEnvio : option Z;
  m_usuarioId : option Z
}.

Record Db := {
  (** whether [getDb()] returns a handle *)
  db_handle : bool;
  clientes : list Cliente;
  mensagens : list InsertMensagem
}.

Record App := {
  world : World;
  db : Db
}.

Definition lift_world {A} (c : Eff World A) : Eff App A :=
  fun app =>
    let (r, w') := c (world app) in
    (r, {| world := w'; db := db app |}).

(** [db.getClienteById], lines 218-224 of [src/db.ts]. *)
Definition getClienteById (id : Z) : Eff App (option Cliente) :=
  app <- Eff.get ;;
  if negb (db_handle (db app)) then Eff.ret None
  else Eff.ret (find (fun c => Z.eqb (cliente_id c) id) (clientes (db app))).

(** [db.createMensagem], lines 576-581 of [src/db.ts]; [insert_throws] is
    what the insert answers. *)
Definition createMensagem (insert_throws : option JsError)
  (mensagem : InsertMensagem) : Eff App unit :=
  app <- Eff.get ;;
  if negb (db_handle (db app))
  then Eff.throw {| message := Some "Database not available" |}
  else
    Eff.external insert_throws ;;
    Eff.modify (fun app =>
      {| world := world app;
         db := {| db_handle := db_handle (db app);
                  clientes := clientes (db app);
                  mensagens := mensagens (db app) ++ [mensagem] |} |}).

Record CreateEnv := {
  send_env : SendEnv;
  insert_throws : option JsError;
  (** [new Date()] *)
  now : Z
}.

Record CreateOutput := {
  out_success : bool;
  out_messageId : option string
}.

(** [mensagens.create], lines 333-371 of the router; [user_id] is
    [ctx.user?.id]. *)
Definition mensagens_create (env : CreateEnv) (input : MensagemInput)
  (user_id : option Z) : Eff App CreateOutput :=
  cliente <- getClienteById (clienteId input) ;;
  match cliente with
  | None => Eff.throw {| message := Some "Cliente não encontrado" |}
  | Some cliente =>
      match cliente_telefone cliente with
      | Some telefone =>
          if negb (Js.truthy (Some telefone))
          then Eff.throw
                 {| message := Some "Cliente não possui telefone cadastrado" |}
          else
            resultado <-
              lift_world
                (enviarMensagemBaileys (send_env env) telefone
                   (conteudo input)) ;;
            createMensagem (insert_throws env)
              {| m_clienteId := clienteId input;
                 m_tipo := tipo input;
                 m_conteudo := conteudo input;
                 m_status := if success resultado then enviada else erro;
                 m_dataEnvio :=
                   if success resultado then Some (now env) else None;
                 m_usuarioId := user_id |} ;;
            if negb (success resultado)
            then Eff.throw
                   {| message :=
                        Some (Js.or_else (error resultado)
                                "Erro ao enviar mensagem") |}
            else Eff.ret {| out_success := true;
                            out_messageId := messageId resultado |}
      | None =>
          Eff.throw
            {| message := Some "Cliente não possui telefone cadastrado" |}
      end
  end.

(** A store with one client, and a manager that is connected. *)
Definition app_open : App :=
  {| world := snd (onConnectionUpdate init_ok update_open
                     (startup init_ok None));
     db := {| db_handle := true;
              clientes := [{| cliente_id := 7;
                              cliente_telefone := Some "88 99671-0011" |}];
              mensagens := [] |} |}.

Definition input_manual : MensagemInput :=
  {| clienteId := 7; tipo := manual; conteudo := "hello" |}.

(** The transport accepts the message under the identifier [id]. *)
Definition accepts_with (id : string) : CreateEnv :=
  {| send_env := SendResolves (Some {| key := Some {| key_id := Some id |} |});
     insert_throws := None;
     now := 1700000000000 |}.

End Routers.

(** ** The Z-API sender, [enviarMensagemWhatsApp]

    The stateless sender posts to the Z-API gateway with the instance and
    token of the configuration row.  The store holds the table the sender
    reads and the requests it has made. *)

Module ZApi.

Local Open Scope eff_scope.

(** A value read from the JSON answer of the gateway.  The code only tests
    such values for truthiness and passes them on; a number is kept as an
    integer, of which only being zero matters. *)
Inductive JsValue :=
| JUndefined
| JNull
| JBool (b : bool)
| JNumber (n : Z)
| JString (s : string)
| JObject.

Definition truthy (v : JsValue) : bool :=
  match v with
  | JUndefined => false
  | JNull => false
  | JBool b => b
  | JNumber n => negb (Z.eqb n 0)
  | JString s => negb (String.eqb s "")
  | JObject => true
  end.

(** [a || b] *)
Definition or_value (a b : JsValue) : JsValue :=
  if truthy a then a else b.

(** The columns of [configWhatsapp] the sender reads; [ativo] is the
    truthiness of the column. *)
Record ConfigWhatsapp := {
  accountSid : option string;
  authToken : option string;
  ativo : bool
}.

(** [fetch(apiUrl, { method: "POST", body: JSON.stringify(zapiData) })]:
    the address and the two fields of the body. *)
Record Request := {
  url : string;
  phone : string;
  message_text : string
}.

Record Store := {
  db_handle : bool;
  configWhatsapp : list ConfigWhatsapp;
  requests : list Request
}.

(** The fields of the answer the sender reads. *)
Record Answer := {
  a_messageId : JsValue;
  a_id : JsValue;
  a_message : JsValue;
  a_error : JsValue
}.

(** What [response.json()] answers: a rejection, the JSON [null], or a value
    whose properties can be read. *)
Inductive JsonEnv :=
| JsonRejects (e : JsError)
| JsonResolves (result : option Answer).

(** What [fetch] answers: a rejection or a response with its [ok] flag. *)
Inductive FetchEnv :=
| FetchRejects (e : JsError)
| FetchResolves (ok : bool) (json : JsonEnv).

Record Result := {
  success : bool;
  error : option JsValue;
  messageId : option JsValue
}.

(** [db.getConfigWhatsapp], lines 661-667 of [src/db.ts]. *)
Definition getConfigWhatsapp : Eff Store (option ConfigWhatsapp) :=
  st <- Eff.get ;;
  if negb (db_handle st) then Eff.ret None
  else Eff.ret (List.head (configWhatsapp st)).

Definition fetch (env : FetchEnv) (request : Request)
  : Eff Store (bool * JsonEnv) :=
  Eff.modify (fun st =>
    {| db_handle := db_handle st; configWhatsapp := configWhatsapp st;
       requests := requests st ++ [request] |}) ;;
  match env with
  | FetchRejects e => Eff.throw e
  | FetchResolves ok json => Eff.ret (ok, json)
  end.

Definition response_json (json : JsonEnv) : Eff Store (option Answer) :=
  match json with
  | JsonRejects e => Eff.throw e
  | JsonResolves result => Eff.ret result
  end.

(** Reading a property of [null] throws a [TypeError]. *)
Definition type_error_null (property : string) : JsError :=
  {| message :=
       Some ("Cannot read properties of null (reading '" ++ property
             ++ "')")%string |}.

Definition apiUrl (instanceId token : string) : string :=
  ("https://api.z-api.io/instances/" ++ instanceId ++ "/token/" ++ token
   ++ "/send-text")%string.

Definition not_configured : Result :=
  {| success := false;
     error :=
       Some (JString "WhatsApp não configurado. Configure em Configurações.");
     messageId := None |}.

Definition disabled : Result :=
  {| success := false;
     error := Some (JString "WhatsApp está desativado nas configurações.");
     messageId := None |}.

Definition enviarMensagemWhatsApp (env : FetchEnv)
  (telefone mensagem : string) : Eff Store Result :=
  Eff.try_catch
    (config <- getConfigWhatsapp ;;
     match config with
     | None => Eff.ret not_configured
     | Some config =>
         match accountSid config, authToken config with
         | Some instanceId, Some token =>
             if negb (Js.truthy (Some instanceId))
                || negb (Js.truthy (Some token))
             then Eff.ret not_configured
             else if negb (ativo config) then Eff.ret disabled
             else
               let telefoneDestino := Telefone.telefoneDestino telefone in
               response <-
                 fetch env {| url := apiUrl instanceId token;
                              phone := telefoneDestino;
                              message_text := mensagem |} ;;
               result <- response_json (snd response) ;;
               if negb (fst response)
               then
                 match result with
                 | None => Eff.throw (type_error_null "message")
                 | Some r =>
                     Eff.ret
                       {| success := false;
                          error :=
                            Some (or_value
                                    (or_value (a_message r) (a_error r))
                                    (JString "Erro ao enviar mensagem"));
                          messageId := None |}
                 end
               else
                 match result with
                 | None => Eff.throw (type_error_null "messageId")
                 | Some r =>
                     Eff.ret
                       {| success := true;
                          error := None;
                          messageId :=
                            Some (or_value
                                    (or_value (a_messageId r) (a_id r))
                                    (JString "sent")) |}
                 end
         | _, _ => Eff.ret not_configured
         end
     end)
    (fun e =>
       Eff.ret
         {| success := false;
            error :=
              Some (JString
                      (Js.or_else (message e)
                         "Erro desconhecido ao enviar mensagem"));
            messageId := None |}).

(** A configured, active gateway. *)
Definition store_active : Store :=
  {| db_handle := true;
     configWhatsapp :=
       [{| accountSid := Some "INSTANCE"; authToken := Some "TOKEN";
           ativo := true |}];
     requests := [] |}.

End ZApi.

(** ** Stock and sales, [src/db.ts]

    Quantities and identifiers are integers, and sums and differences are
    exact.  The code adds and subtracts doubles, which is exact as long as
    the operands and the result are safe integers ([safe_integer] below);
    the properties that depend on the value of a sum or a difference assume
    it.  A statement sent through an available handle is carried out;
    [handle] is whether [getDb()] returns one. *)

Module Estoque.

Local Open Scope eff_scope.
Local Open Scope Z_scope.

Inductive TipoMovimentacao := entrada | saida.

(** A row of [estoque]. *)
Record EstoqueRow := {
  e_produtoId : Z;
  e_quantidade : Z
}.

(** A row handed to [insert(movimentacoesEstoque)]. *)
Record Movimentacao := {
  mv_produtoId : Z;
  mv_tipo : TipoMovimentacao;
  mv_quantidade : Z;
  mv_quantidadeAtual : Z;
  mv_observacao : option string;
  mv_usuarioId : option string
}.

(** An item of a sale as the router passes it. *)
Record Item := {
  i_produtoId : Z;
  i_quantidade : Z;
  i_precoUnitario : Z;
  i_subtotal : Z
}.

(** A row handed to [insert(itensVenda)]: the item and the sale it is of. *)
Record ItemVenda := {
  iv_item : Item;
  iv_vendaId : Z
}.

(** The sale as [createVenda] receives it: the function reads [usuarioId]
    only, the other columns are carried as they come. *)
Record InsertVenda := {
  v_clienteId : Z;
  v_vendedorId : Z;
  v_total : Z;
  v_lucro : Z;
  v_usuarioId : option string
}.

Record Store := {
  handle : bool;
  estoque : list EstoqueRow;
  movimentacoes : list Movimentacao;
  vendas : list (Z * InsertVenda);
  itensVenda : list ItemVenda;
  (** the identifier the next [insert(vendas)] reports as [insertId] *)
  nextVendaId : Z
}.

Definition set_estoque (v : list EstoqueRow) (st : Store) : Store :=
  {| handle := handle st; estoque := v; movimentacoes := movimentacoes st;
     vendas := vendas st; itensVenda := itensVenda st;
     nextVendaId := nextVendaId st |}.

Definition add_movimentacao (m : Movimentacao) (st : Store) : Store :=
  {| handle := handle st; estoque := estoque st;
     movimentacoes := movimentacoes st ++ [m];
     vendas := vendas st; itensVenda := itensVenda st;
     nextVendaId := nextVendaId st |}.

Definition add_itemVenda (i : ItemVenda) (st : Store) : Store :=
  {| handle := handle st; estoque := estoque st;
     movimentacoes := movimentacoes st;
     vendas := vendas st; itensVenda := itensVenda st ++ [i];
     nextVendaId := nextVendaId st |}.

Definition add_venda (v : InsertVenda) (st : Store) : Store :=
  {| handle := handle st; estoque := estoque st;
     movimentacoes := movimentacoes st;
     vendas := vendas st ++ [(nextVendaId st, v)];
     itensVenda := itensVenda st;
     nextVendaId := nextVendaId st + 1 |}.

(** [db.getEstoquePorProduto], lines 301-307. *)
Definition getEstoquePorProduto (produtoId : Z)
  : Eff Store (option EstoqueRow) :=
  st <- Eff.get ;;
  if negb (handle st) then Eff.ret None
  else Eff.ret (find (fun r => Z.eqb (e_produtoId r) produtoId) (estoque st)).

(** [update(estoque).set({ quantidade }).where(eq(estoque.produtoId, id))] *)
Definition update_quantidade (produtoId quantidade : Z)
  (rows : list EstoqueRow) : list EstoqueRow :=
  map (fun r =>
         if Z.eqb (e_produtoId r) produtoId
         then {| e_produtoId := e_produtoId r; e_quantidade := quantidade |}
         else r)
      rows.

Record Saldo := {
  quantidadeAnterior : Z;
  quantidadeAtual : Z
}.

(** The new quantity, lines 320-322. *)
Definition novaQuantidade (tipo : TipoMovimentacao) (atual quantidade : Z)
  : Z :=
  match tipo with
  | entrada => atual + quantidade
  | saida => atual - quantidade
  end.

(** The movement [atualizarEstoque] records, lines 334-341. *)
Definition movimentacao (produtoId : Z) (tipo : TipoMovimentacao)
  (quantidade nova : Z) (usuarioId observacao : option string)
  : Movimentacao :=
  {| mv_produtoId := produtoId;
     mv_tipo := tipo;
     mv_quantidade := quantidade;
     mv_quantidadeAtual := nova;
     mv_observacao := observacao;
     mv_usuarioId := usuarioId |}.

(** [db.atualizarEstoque], lines 309-344. *)
Definition atualizarEstoque (produtoId : Z) (tipo : TipoMovimentacao)
  (quantidade : Z) (usuarioId observacao : option string)
  : Eff Store Saldo :=
  st <- Eff.get ;;
  if negb (handle st)
  then Eff.throw {| message := Some "Database not available" |}
  else
    estoqueAtual <- getEstoquePorProduto produtoId ;;
    match estoqueAtual with
    | None =>
        Eff.throw {| message := Some "Produto não encontrado no estoque" |}
    | Some estoqueAtual =>
        let nova :=
          novaQuantidade tipo (e_quantidade estoqueAtual) quantidade in
        if nova <? 0
        then
          Eff.throw
            {| message := Some "Quantidade insuficiente em estoque" |}
        else
          Eff.modify (fun st =>
            set_estoque (update_quantidade produtoId nova (estoque st)) st) ;;
          Eff.modify
            (add_movimentacao
               (movimentacao produtoId tipo quantidade nova usuarioId
                  observacao)) ;;
          Eff.ret {| quantidadeAnterior := e_quantidade estoqueAtual;
                     quantidadeAtual := nova |}
    end.

(** The text of [`Venda #${vendaId}`]. *)
Definition observacao_venda (vendaId : Z) : string :=
  ("Venda #" ++ NilZero.string_of_int (Z.to_int vendaId))%string.

(** [x || undefined] on an optional string. *)
Definition or_undefined (v : option string) : option string :=
  if Js.truthy v then v else None.

(** The loop of [createVenda], lines 398-412. *)
Fixpoint baixar_itens (vendaId : Z) (usuarioId : option string)
  (itens : list Item) : Eff Store unit :=
  match itens with
  | [] => Eff.ret tt
  | item :: rest =>
      Eff.modify (add_itemVenda {| iv_item := item; iv_vendaId := vendaId |}) ;;
      atualizarEstoque (i_produtoId item) saida (i_quantidade item)
        (or_undefined usuarioId) (Some (observacao_venda vendaId)) ;;
      baixar_itens vendaId usuarioId rest
  end.

(** [db.createVenda], lines 389-415. *)
Definition createVenda (venda : InsertVenda) (itens : list Item)
  : Eff Store Z :=
  st <- Eff.get ;;
  if negb (handle st)
  then Eff.throw {| message := Some "Database not available" |}
  else
    let vendaId := nextVendaId st in
    Eff.modify (add_venda venda) ;;
    baixar_itens vendaId (v_usuarioId venda) itens ;;
    Eff.ret vendaId.

(** What [getEstoquePorProduto] reads for a product, [0] when it has no
    row. *)
Definition saldo (produtoId : Z) (st : Store) : Z :=
  match find (fun r => Z.eqb (e_produtoId r) produtoId) (estoque st) with
  | Some r => e_quantidade r
  | None => 0
  end.

(** The quantity of a product in a list of items. *)
Fixpoint quantidade_vendida (produtoId : Z) (itens : list Item) : Z :=
  match itens with
  | [] => 0
  | item :: rest =>
      (if Z.eqb (i_produtoId item) produtoId then i_quantidade item else 0)
      + quantidade_vendida produtoId rest
  end.

(** The row [createVenda] inserts for an item of the sale [vendaId]. *)
Definition item_da_venda (vendaId : Z) (item : Item) : ItemVenda :=
  {| iv_item := item; iv_vendaId := vendaId |}.

(** [Number.MAX_SAFE_INTEGER], 2^53 - 1. *)
Definition MAX_SAFE_INTEGER : Z := 9007199254740991.

(** [Number.isSafeInteger] on an integer. *)
Definition safe_integer (n : Z) : Prop :=
  - MAX_SAFE_INTEGER <= n <= MAX_SAFE_INTEGER.

(** Every row of [estoque] holds a safe integer. *)
Definition estoque_seguro (st : Store) : Prop :=
  Forall (fun r => safe_integer (e_quantidade r)) (estoque st).

(** Every item of a sale has a quantity from 0 to [MAX_SAFE_INTEGER]. *)
Definition itens_seguros (itens : list Item) : Prop :=
  Forall (fun item => 0 <= i_quantidade item <= MAX_SAFE_INTEGER) itens.

(** No row of [estoque] is below zero. *)
Definition estoque_nao_negativo (st : Store) : Prop :=
  Forall (fun r => 0 <= e_quantidade r) (estoque st).

(** A store with twelve units of product 1 and three of product 2. *)
Definition store_exemplo : Store :=
  {| handle := true;
     estoque := [{| e_produtoId := 1; e_quantidade := 12 |};
                 {| e_produtoId := 2; e_quantidade := 3 |}];
     movimentacoes := []; vendas := []; itensVenda := [];
     nextVendaId := 41 |}.

Definition venda_exemplo : InsertVenda :=
  {| v_clienteId := 7; v_vendedorId := 2; v_total := 200; v_lucro := 50;
     v_usuarioId := Some "u1" |}.

Definition item_exemplo (produtoId quantidade : Z) : Item :=
  {| i_produtoId := produtoId; i_quantidade := quantidade;
     i_precoUnitario := 100; i_subtotal := 100 * quantidade |}.

End Estoque.

(** ** Users, [upsertUser] of [src/db.ts] *)

Module Users.

Local Open Scope eff_scope.

(** A nullable text column of the argument: [None] is [undefined],
    [Some None] is [null]. *)
Definition Nullable := option (option string).

(** The argument.  [role] is [None] when the property is [undefined] and
    [Some] for any other value. *)
Record InsertUser := {
  id : option string;
  name : Nullable;
  email : Nullable;
  loginMethod : Nullable;
  lastSignedIn : option Z;
  role : option string
}.

(** The object [values]: a key that was not assigned is [None]. *)
Record Values := {
  v_id : string;
  v_name : Nullable;
  v_email : Nullable;
  v_loginMethod : Nullable;
  v_lastSignedIn : option Z;
  v_role : option string
}.

(** The object [updateSet]. *)
Record UpdateSet := {
  u_name : Nullable;
  u_email : Nullable;
  u_loginMethod : Nullable;
  u_lastSignedIn : option Z;
  u_role : option string
}.

(** [insert(users).values(values).onDuplicateKeyUpdate({ set: updateSet })] *)
Record Upsert := {
  values : Values;
  updateSet : UpdateSet
}.

Record Store := {
  handle : bool;
  statements : list Upsert
}.

Definition present {A} (v : option A) : nat :=
  match v with
  | Some _ => 1
  | None => 0
  end.

(** [Object.keys(updateSet).length] *)
Definition keys (u : UpdateSet) : nat :=
  present (u_name u) + present (u_email u) + present (u_loginMethod u)
  + present (u_lastSignedIn u) + present (u_role u).

(** Lines 46-76: the two objects built from the argument; [ownerId] is
    [ENV.ownerId] and [now] is [new Date()]. *)
Definition build (ownerId : option string) (now : Z) (user_id : string)
  (user : InsertUser) : Upsert :=
  let admin :=
    match role user with
    | None =>
        match ownerId with
        | Some owner => if String.eqb user_id owner then Some "admin" else None
        | None => None
        end
    | Some _ => None
    end in
  let updateSet :=
    {| u_name := name user; u_email := email user;
       u_loginMethod := loginMethod user;
       u_lastSignedIn := lastSignedIn user;
       u_role := admin |} in
  {| values :=
       {| v_id := user_id; v_name := name user; v_email := email user;
          v_loginMethod := loginMethod user;
          v_lastSignedIn := lastSignedIn user; v_role := admin |};
     updateSet :=
       if Nat.eqb (keys updateSet) 0
       then {| u_name := u_name updateSet; u_email := u_email updateSet;
               u_loginMethod := u_loginMethod updateSet;
               u_lastSignedIn := Some now;
               u_role := u_role updateSet |}
       else updateSet |}.

(** [db.upsertUser], lines 34-85; [insert_throws] is what the statement
    answers. *)
Definition upsertUser (ownerId : option string) (now : Z)
  (insert_throws : option JsError) (user : InsertUser) : Eff Store unit :=
  if negb (Js.truthy (id user))
  then Eff.throw {| message := Some "User ID is required for upsert" |}
  else
    st <- Eff.get ;;
    if negb (handle st) then Eff.ret tt
    else
      Eff.try_catch
        (Eff.modify (fun st =>
           {| handle := handle st;
              statements :=
                statements st
                ++ [build ownerId now (Js.or_else (id user) "") user] |}) ;;
         Eff.external insert_throws)
        (fun error => Eff.throw error).

End Users.

(** ** Reading a run *)

Module Lifecycle.
Import Baileys.

(** The action is a ["connection.update"] with [connection: "open"]. *)
Definition is_open_event (a : Action) : bool :=
  match a with
  | ConnectionUpdateOn _ update _ =>
      match connection update with
      | Some ConnOpen => true
      | _ => false
      end
  | _ => false
  end.

(** The result of a send has exactly the fields of its kind: a success
    carries a non-empty identifier and no error, a failure a non-empty
    error and no identifier. *)
Definition well_formed (r : SendResult) : Prop :=
  if success r
  then error r = None /\ exists id, messageId r = Some id /\ id <> ""
  else messageId r = None /\ exists text, error r = Some text /\ text <> "".

End Lifecycle.

(** * Properties *)

Import Baileys.

(** ** Phone formatting *)

Section Digits.

Lemma strip_all_digits s : Js.all_digits (Js.strip_non_digits s) = true.
Proof.
  induction s as [|c rest IH]; simpl; [reflexivity|].
  destruct (Js.is_digit c) eqn:E; simpl; [rewrite E|]; auto.
Qed.

Lemma strip_fixes_digits s :
  Js.all_digits s = true -> Js.strip_non_digits s = s.
Proof.
  induction s as [|c rest IH]; simpl; [reflexivity|].
  intros H. apply andb_true_iff in H as [Hc Hr].
  rewrite Hc, IH; auto.
Qed.

Lemma all_digits_app s t :
  Js.all_digits (s ++ t) = Js.all_digits s && Js.all_digits t.
Proof.
  induction s as [|c rest IH]; simpl; [reflexivity|].
  now rewrite IH, andb_assoc.
Qed.

Lemma telefoneFormatado_all_digits s :
  Js.all_digits (Telefone.telefoneFormatado s) = true.
Proof.
  unfold Telefone.telefoneFormatado.
  destruct (negb _); [rewrite all_digits_app; simpl|]; apply strip_all_digits.
Qed.

Lemma telefoneFormatado_prefix s :
  Js.startsWith (Telefone.telefoneFormatado s) "55" = true.
Proof.
  unfold Telefone.telefoneFormatado.
  destruct (Js.startsWith (Js.strip_non_digits s) "55") eqn:E; simpl;
    [exact E|].
  unfold Js.startsWith. simpl.
  destruct (Js.strip_non_digits s); reflexivity.
Qed.

Lemma telefoneDestino_eq s :
  Telefone.telefoneDestino s = Telefone.telefoneFormatado s.
Proof. reflexivity. Qed.

Lemma telefoneFormatado_fixpoint s :
  Telefone.telefoneFormatado (Telefone.telefoneFormatado s)
  = Telefone.telefoneFormatado s.
Proof.
  unfold Telefone.telefoneFormatado at 1.
  rewrite (strip_fixes_digits _ (telefoneFormatado_all_digits s)).
  now rewrite telefoneFormatado_prefix.
Qed.

End Digits.

(** C6. Stripping the non-digits and prefixing "55" when it is missing is
    idempotent, in the Baileys sender and in the Z-API sender alike, and
    "(88) 99671-0011" and "5588996710011" are formatted to the same number,
    hence to the same recipient identifier. *)
Theorem telefone_normalization_idempotent :
  (forall s, Telefone.telefoneFormatado (Telefone.telefoneFormatado s)
             = Telefone.telefoneFormatado s)
  /\ (forall s, Telefone.telefoneDestino (Telefone.telefoneDestino s)
                = Telefone.telefoneDestino s)
  /\ Telefone.telefoneFormatado "(88) 99671-0011"
     = Telefone.telefoneFormatado "5588996710011"
  /\ Telefone.telefoneDestino "(88) 99671-0011"
     = Telefone.telefoneDestino "5588996710011"
  /\ Telefone.jid "(88) 99671-0011" = Telefone.jid "5588996710011"
  /\ Telefone.jid "5588996710011" = "5588996710011@s.whatsapp.net".
Proof.
  split; [exact telefoneFormatado_fixpoint|].
  split.
  - intros s. rewrite !telefoneDestino_eq. apply telefoneFormatado_fixpoint.
  - do 3 (split; [vm_compute; reflexivity|]). vm_compute; reflexivity.
Qed.

(** ** Sending *)

Section Send.

Variables (env : SendEnv) (telefone mensagem : string).

Lemma send_closed w :
  sock w = None \/ isConnected w = false ->
  enviarMensagemBaileys env telefone mensagem w
  = (Returns {| success := false; error := Some not_connected_error;
                messageId := None |}, w).
Proof.
  unfold enviarMensagemBaileys, Eff.try_catch, Eff.bind, Eff.get.
  intros [H|H]; rewrite H; [reflexivity|].
  destruct (sock w); reflexivity.
Qed.

Lemma send_open_calls w s :
  sock w = Some s -> isConnected w = true ->
  calls (snd (enviarMensagemBaileys env telefone mensagem w))
  = calls w ++ [CallSendMessage s (Telefone.jid telefone) mensagem].
Proof.
  unfold enviarMensagemBaileys, Eff.try_catch, Eff.bind, Eff.get, sendMessage.
  intros -> ->. destruct env; reflexivity.
Qed.

End Send.

(** C3. While there is no socket or the manager is not connected,
    [enviarMensagemBaileys] returns the not-connected failure whatever the
    transport would answer, and leaves the store as it was: no
    [sendMessage] is logged and nothing is kept for later.  Conversely a
    call that reaches the transport was made with a socket and
    [isConnected] set. *)
Theorem send_fails_fast_when_not_open (env : SendEnv)
  (telefone mensagem : string) (w : World) :
  (sock w = None \/ isConnected w = false ->
   enviarMensagemBaileys env telefone mensagem w
   = (Returns {| success := false; error := Some not_connected_error;
                 messageId := None |}, w))
  /\ (calls (snd (enviarMensagemBaileys env telefone mensagem w)) <> calls w ->
      exists s, sock w = Some s /\ isConnected w = true).
Proof.
  split; [apply send_closed|].
  intros Hcalls.
  destruct (sock w) as [s|] eqn:Hs.
  - destruct (isConnected w) eqn:Hc; [now exists s|].
    exfalso. apply Hcalls.
    now rewrite send_closed by (right; exact Hc).
  - exfalso. apply Hcalls.
    now rewrite send_closed by (left; exact Hs).
Qed.

Lemma send_fails_fast_when_not_open_witness :
  enviarMensagemBaileys (SendResolves None) "88 99671-0011" "hello"
    (boot None)
  = (Returns {| success := false; error := Some not_connected_error;
                messageId := None |}, boot None).
Proof.
  apply (proj1 (send_fails_fast_when_not_open (SendResolves None)
                  "88 99671-0011" "hello" (boot None))).
  left. reflexivity.
Defined.

(** C7. With a socket and [isConnected] set, a transport that accepts the
    message under a non-empty identifier has that identifier returned to
    the caller; in the scenario of the specification the caller of
    [send("88 99671-0011", "hello")] receives success with identifier "m1",
    and the transport was handed the text for 5588996710011. *)
Theorem send_passes_message_id_through (w : World) (s : SockId) :
  sock w = Some s -> isConnected w = true ->
  (forall telefone mensagem id,
     Js.truthy (Some id) = true ->
     fst (enviarMensagemBaileys
            (SendResolves (Some {| key := Some {| key_id := Some id |} |}))
            telefone mensagem w)
     = Returns {| success := true; error := None; messageId := Some id |})
  /\ enviarMensagemBaileys
       (SendResolves (Some {| key := Some {| key_id := Some "m1" |} |}))
       "88 99671-0011" "hello" w
     = (Returns {| success := true; error := None; messageId := Some "m1" |},
        log (CallSendMessage s "5588996710011@s.whatsapp.net" "hello") w).
Proof.
  intros Hs Hc. split.
  - intros telefone mensagem id Hid.
    unfold enviarMensagemBaileys, Eff.try_catch, Eff.bind, Eff.get.
    rewrite Hs, Hc. simpl.
    destruct id; [discriminate|reflexivity].
  - unfold enviarMensagemBaileys, Eff.try_catch, Eff.bind, Eff.get.
    rewrite Hs, Hc. reflexivity.
Qed.

Lemma send_passes_message_id_through_witness :
  fst (enviarMensagemBaileys
         (SendResolves (Some {| key := Some {| key_id := Some "m1" |} |}))
         "88 99671-0011" "hello"
         (set_isConnected true (startup init_ok None)))
  = Returns {| success := true; error := None; messageId := Some "m1" |}.
Proof.
  apply (proj1 (send_passes_message_id_through
                  (set_isConnected true (startup init_ok None)) 0
                  eq_refl eq_refl)).
  reflexivity.
Defined.

(** C10. With a socket and [isConnected] set, when the transport resolves
    without a usable key identifier (no result, no key, no id, or an empty
    id) the caller receives success with the identifier "sent". *)
Theorem send_without_key_id_returns_sent (w : World) (s : SockId)
  (result : option WAMessage) (telefone mensagem : string) :
  sock w = Some s -> isConnected w = true ->
  Js.truthy (result_key_id result) = false ->
  fst (enviarMensagemBaileys (SendResolves result) telefone mensagem w)
  = Returns {| success := true; error := None; messageId := Some "sent" |}.
Proof.
  intros Hs Hc Hid.
  unfold enviarMensagemBaileys, Eff.try_catch, Eff.bind, Eff.get.
  rewrite Hs, Hc. simpl.
  destruct (result_key_id result) as [[|c id]|]; [reflexivity|discriminate|reflexivity].
Qed.

Lemma send_without_key_id_returns_sent_witness :
  fst (enviarMensagemBaileys (SendResolves None) "88 99671-0011" "hello"
         (set_isConnected true (startup init_ok None)))
  = Returns {| success := true; error := None; messageId := Some "sent" |}
  /\ fst (enviarMensagemBaileys
            (SendResolves (Some {| key := Some {| key_id := None |} |}))
            "88 99671-0011" "hello"
            (set_isConnected true (startup init_ok None)))
     = Returns {| success := true; error := None; messageId := Some "sent" |}.
Proof.
  split.
  - apply (send_without_key_id_returns_sent
             (set_isConnected true (startup init_ok None)) 0 None);
      reflexivity.
  - apply (send_without_key_id_returns_sent
             (set_isConnected true (startup init_ok None)) 0
             (Some {| key := Some {| key_id := None |} |}));
      reflexivity.
Defined.

Section DigitsOfInput.

(** The ten digit characters, written out. *)
Lemma is_digit_spec c :
  Js.is_digit c
  = existsb (Ascii.eqb c) (list_ascii_of_string "0123456789").
Proof. destruct c as [[] [] [] [] [] [] [] []]; reflexivity. Qed.

(** Stripping keeps exactly the characters of the input that are digits,
    in their order. *)
Lemma strip_is_filter s :
  list_ascii_of_string (Js.strip_non_digits s)
  = filter (fun c => existsb (Ascii.eqb c)
                       (list_ascii_of_string "0123456789"))
      (list_ascii_of_string s).
Proof.
  induction s as [|c rest IH]; [reflexivity|].
  cbn [Js.strip_non_digits list_ascii_of_string filter].
  rewrite <- is_digit_spec.
  destruct (Js.is_digit c); cbn [list_ascii_of_string]; now rewrite IH.
Qed.

Lemma all_digits_Forall s :
  Js.all_digits s = true ->
  Forall (fun c => In c (list_ascii_of_string "0123456789"))
    (list_ascii_of_string s).
Proof.
  induction s as [|c rest IH]; cbn [Js.all_digits list_ascii_of_string];
    [constructor|].
  intros H. apply andb_true_iff in H as [Hc Hr].
  constructor; [|now apply IH].
  rewrite is_digit_spec in Hc. apply existsb_exists in Hc as (x & Hx & Hcx).
  apply Ascii.eqb_eq in Hcx. now subst x.
Qed.

Lemma prefix_55 d :
  Js.startsWith d "55" = true -> exists rest, d = ("55" ++ rest)%string.
Proof.
  unfold Js.startsWith.
  destruct d as [|a [|b rest]]; cbn [String.prefix]; intros H.
  - discriminate.
  - destruct (Ascii.ascii_dec "5" a); discriminate.
  - destruct (Ascii.ascii_dec "5" a) as [<-|]; [|discriminate].
    destruct (Ascii.ascii_dec "5" b) as [<-|]; [|discriminate].
    now exists rest.
Qed.

End DigitsOfInput.

(** C9. Whatever the phone string, a call of [enviarMensagemBaileys] hands
    nothing to the transport when there is no socket or no connection, and
    otherwise hands it exactly one message, whose recipient is
    [d ++ "@s.whatsapp.net"].  The number [d] is tied to the input without
    reference to the code's own stripping: with [p] the characters of the
    input that are among "0123456789", in their order and with none left
    out, [d] is [p] when [p] starts with "55" and "55" followed by [p]
    otherwise.  Hence [d] consists of digit characters only and starts with
    "55". *)
Theorem send_recipient_shape (env : SendEnv) (telefone mensagem : string)
  (w : World) :
  let w' := snd (enviarMensagemBaileys env telefone mensagem w) in
  ((sock w = None \/ isConnected w = false) /\ calls w' = calls w)
  \/ exists s d p,
       sock w = Some s /\ isConnected w = true
       /\ calls w'
          = calls w
            ++ [CallSendMessage s (d ++ "@s.whatsapp.net")%string mensagem]
       /\ list_ascii_of_string p
          = filter (fun c => existsb (Ascii.eqb c)
                               (list_ascii_of_string "0123456789"))
              (list_ascii_of_string telefone)
       /\ d = (if String.prefix "55" p then p else "55" ++ p)%string
       /\ Forall (fun c => In c (list_ascii_of_string "0123456789"))
            (list_ascii_of_string d)
       /\ (exists rest, d = ("55" ++ rest)%string)
       /\ Js.all_digits d = true
       /\ Js.startsWith d "55" = true
       /\ (d = Js.strip_non_digits telefone
           \/ d = ("55" ++ Js.strip_non_digits telefone)%string).
Proof.
  intros w'. subst w'.
  destruct (sock w) as [s|] eqn:Hs.
  - destruct (isConnected w) eqn:Hc.
    + right.
      exists s, (Telefone.telefoneFormatado telefone),
        (Js.strip_non_digits telefone).
      split; [reflexivity|]. split; [reflexivity|].
      split; [now apply send_open_calls|].
      split; [apply strip_is_filter|].
      split.
      { unfold Telefone.telefoneFormatado, Js.startsWith.
        destruct (String.prefix "55" (Js.strip_non_digits telefone));
          reflexivity. }
      split; [apply all_digits_Forall, telefoneFormatado_all_digits|].
      split; [apply prefix_55, telefoneFormatado_prefix|].
      split; [apply telefoneFormatado_all_digits|].
      split; [apply telefoneFormatado_prefix|].
      unfold Telefone.telefoneFormatado. destruct (negb _); auto.
    + left. split; [now right|].
      now rewrite send_closed by (right; exact Hc).
  - left. split; [now left|].
    now rewrite send_closed by (left; exact Hs).
Qed.

(** ** The connection life cycle *)

Ltac unfold_eff :=
  unfold Eff.when, Eff.external, Eff.try_catch, Eff.bind, Eff.modify,
    Eff.get, Eff.ret, Eff.throw in *.

Ltac run_init :=
  unfold initWhatsAppConnection, makeWASocket, register_listeners;
  unfold_eff; simpl.

Ltac case_init env w :=
  destruct (authDir w) as [?|]; simpl;
  destruct (mkdirSync_throws env) as [?|]; simpl;
  destruct (useMultiFileAuthState_throws env) as [?|]; simpl;
  destruct (fetchLatestBaileysVersion_throws env) as [?|]; simpl;
  destruct (makeWASocket_throws env) as [?|]; simpl.

Section Init.

Variable env : InitEnv.

Lemma init_calls_log c w :
  init_calls (log c w)
  = init_calls w + match c with CallInit => 1 | _ => 0 end.
Proof.
  unfold init_calls, log; simpl.
  rewrite filter_app, length_app. destruct c; reflexivity.
Qed.

Lemma init_counts w :
  init_calls (snd (initWhatsAppConnection env w)) = S (init_calls w).
Proof.
  run_init. case_init env w;
    unfold init_calls; simpl;
    repeat (rewrite filter_app, length_app; simpl); lia.
Qed.

Lemma init_keeps_status w :
  getWhatsAppStatus (snd (initWhatsAppConnection env w))
  = getWhatsAppStatus w.
Proof. run_init. case_init env w; reflexivity. Qed.

Lemma init_listening w :
  listening (snd (initWhatsAppConnection env w)) = listening w
  \/ listening (snd (initWhatsAppConnection env w))
     = listening w ++ [nextSock w].
Proof. run_init. case_init env w; auto. Qed.

End Init.

Lemma init_ok_opens w :
  fst (initWhatsAppConnection init_ok w)
  = Returns {| init_success := true; init_error := None |}
  /\ sock (snd (initWhatsAppConnection init_ok w)) = Some (nextSock w)
  /\ listening (snd (initWhatsAppConnection init_ok w))
     = listening w ++ [nextSock w].
Proof. run_init. destruct (authDir w); simpl; auto. Qed.

Lemma not_loggedOut_spec code :
  not_loggedOut code = false <-> code = Some loggedOut.
Proof.
  unfold not_loggedOut. destruct code as [c|]; [|split; discriminate].
  rewrite negb_false_iff, Z.eqb_eq. split; congruence.
Qed.

Lemma remove_only s : List.remove Nat.eq_dec s [s] = [].
Proof. simpl. destruct (Nat.eq_dec s s); congruence. Qed.

Lemma remove_shrinks s l :
  length (List.remove Nat.eq_dec s l) <= length l.
Proof.
  induction l as [|x l IH]; simpl; [lia|].
  destruct (Nat.eq_dec s x); simpl; lia.
Qed.

Lemma listening_short s w :
  is_listening s w = true -> length (listening w) <= 1 ->
  listening w = [s].
Proof.
  unfold is_listening. destruct (listening w) as [|x [|y l]]; simpl;
    try discriminate; try lia.
  rewrite orb_false_r, Nat.eqb_eq. now intros ->.
Qed.

(** A manager at rest stays at rest under any action but a connect. *)
Lemma settled_step n a w w' :
  settled n w -> is_Connect a = false -> step a w = Some w' -> settled n w'.
Proof.
  intros (Hc & Hl & Hn) Ha Hstep.
  destruct a as [e|s u e|s c|e t m|e]; simpl in *; try discriminate.
  - unfold is_listening in Hstep. rewrite Hl in Hstep. discriminate.
  - unfold is_listening in Hstep. rewrite Hl in Hstep. discriminate.
  - rewrite send_closed in Hstep by (right; exact Hc).
    inversion Hstep; subst. now repeat split.
  - inversion Hstep; subst; clear Hstep.
    unfold settled, disconnectWhatsApp, logout. unfold_eff.
    destruct (sock w) as [s|]; simpl; [|now repeat split].
    destruct (logout_throws e); simpl.
    + repeat split; auto. rewrite init_calls_log. lia.
    + destruct (authDir w); simpl;
        [destruct (rmSync_throws e); simpl|];
        rewrite Hl; repeat split; auto;
        unfold init_calls in *; simpl;
        repeat (rewrite filter_app, length_app; simpl); lia.
Qed.

Lemma settled_run n acts : forall w w',
  settled n w -> existsb is_Connect acts = false ->
  run acts w = Some w' -> settled n w'.
Proof.
  induction acts as [|a rest IH]; simpl; intros w w' Hw Hacts Hrun.
  - now inversion Hrun; subst.
  - apply orb_false_iff in Hacts as [Ha Hrest].
    destruct (step a w) as [w1|] eqn:Hstep; [|discriminate].
    apply (IH w1 w'); auto.
    apply (settled_step n a w w1); auto.
Qed.

(** C1. When an open socket reports [connection: "close"]:
    - with any status code other than [loggedOut] (or none), the listener
      itself enters [initWhatsAppConnection] once more, from a store in
      which [isConnected] is false; when nothing throws there, a fresh
      socket replaces the closed one;
    - with [loggedOut], [isConnected] is false afterwards and no call at all
      is made, so no reconnect; and if the closed socket was the only open
      one, every later run of sends, events and logouts without an explicit
      connect leaves [isConnected] false and enters
      [initWhatsAppConnection] never. *)
Theorem close_event_reconnect_policy (w : World) (s : SockId)
  (update : ConnectionUpdate) (env : InitEnv) :
  is_listening s w = true ->
  connection update = Some ConnClose ->
  let w' := deliver s update env w in
  (disconnectStatusCode update <> Some loggedOut ->
     (exists w1, isConnected w1 = false /\ calls w1 = calls w
                 /\ w' = snd (initWhatsAppConnection env w1))
     /\ init_calls w' = S (init_calls w)
     /\ (env = init_ok ->
         sock w' = Some (nextSock w)
         /\ listening w'
            = List.remove Nat.eq_dec s (listening w) ++ [nextSock w]))
  /\ (disconnectStatusCode update = Some loggedOut ->
      isConnected w' = false
      /\ calls w' = calls w
      /\ sock w' = sock w
      /\ listening w' = List.remove Nat.eq_dec s (listening w)
      /\ (listening w = [s] ->
          forall acts w'',
            existsb is_Connect acts = false ->
            run acts w' = Some w'' ->
            isConnected w'' = false /\ init_calls w'' = init_calls w)).
Proof.
  intros Hlive Hclose w'. subst w'.
  unfold deliver, closes, onConnectionUpdate. rewrite Hclose.
  split.
  - intros Hcode.
    assert (Hnl : not_loggedOut (disconnectStatusCode update) = true).
    { destruct (not_loggedOut (disconnectStatusCode update)) eqn:E; auto.
      apply not_loggedOut_spec in E. contradiction. }
    rewrite Hnl.
    set (w0 := set_listening (List.remove Nat.eq_dec s (listening w)) w).
    set (w1 := set_isConnected false
                 (if Js.truthy (qr update) then set_qrCode (qr update) w0
                  else w0)).
    assert (Hrun :
      snd ((Eff.when (Js.truthy (qr update))
              (Eff.modify (set_qrCode (qr update))) ;;
            Eff.modify (set_isConnected false) ;;
            Eff.when true (initWhatsAppConnection env ;; Eff.ret tt))%eff w0)
      = snd (initWhatsAppConnection env w1)).
    { unfold w1. unfold Eff.when at 1 2. unfold Eff.bind at 1 2 3.
      unfold Eff.modify, Eff.ret.
      destruct (Js.truthy (qr update)); simpl;
        match goal with
        | |- context [initWhatsAppConnection env ?x] =>
            destruct (initWhatsAppConnection env x) as [[?|?] ?]
        end; reflexivity. }
    rewrite Hrun.
    assert (Hcalls : calls w1 = calls w)
      by (unfold w1, w0; destruct (Js.truthy (qr update)); reflexivity).
    split; [exists w1; repeat split; auto|].
    split.
    + rewrite init_counts. unfold init_calls. now rewrite Hcalls.
    + intros ->. destruct (init_ok_opens w1) as (_ & Hs & Hl).
      rewrite Hs, Hl. unfold w1, w0.
      destruct (Js.truthy (qr update)); auto.
  - intros Hcode.
    apply not_loggedOut_spec in Hcode. rewrite Hcode.
    unfold_eff.
    destruct (Js.truthy (qr update)); simpl;
      (do 4 (split; [reflexivity|]);
       intros Honly acts w'' Hacts Hrun;
       apply (settled_run (init_calls w) acts _ w'') in Hrun;
       [destruct Hrun as (? & ? & ?); split; assumption
       |repeat split; simpl; rewrite Honly; apply remove_only
       |exact Hacts]).
Qed.

Lemma close_event_reconnect_policy_witness :
  (init_calls (deliver 0 (update_close connectionLost) init_ok
                 (startup init_ok None)) = 2
   /\ sock (deliver 0 (update_close connectionLost) init_ok
              (startup init_ok None)) = Some 1)
  /\ (isConnected (deliver 0 (update_close loggedOut) init_ok
                     (startup init_ok None)) = false
      /\ calls (deliver 0 (update_close loggedOut) init_ok
                  (startup init_ok None))
         = calls (startup init_ok None)
      /\ exists w'',
           run [SendMessage (SendResolves None) "88 99671-0011" "hello";
                Disconnect logout_ok]
             (deliver 0 (update_close loggedOut) init_ok
                (startup init_ok None)) = Some w''
           /\ isConnected w'' = false
           /\ init_calls w'' = 1).
Proof.
  split.
  - destruct (close_event_reconnect_policy (startup init_ok None) 0
                (update_close connectionLost) init_ok eq_refl eq_refl)
      as [Htransient _].
    destruct Htransient as (_ & Hn & Hok); [discriminate|].
    split; [exact Hn|]. exact (proj1 (Hok eq_refl)).
  - destruct (close_event_reconnect_policy (startup init_ok None) 0
                (update_close loggedOut) init_ok eq_refl eq_refl)
      as [_ Hterminal].
    destruct Hterminal as (Hc & Hcalls & _ & _ & Hstays); [reflexivity|].
    split; [exact Hc|]. split; [exact Hcalls|].
    eexists. split; [vm_compute; reflexivity|].
    apply (Hstays eq_refl
             [SendMessage (SendResolves None) "88 99671-0011" "hello";
              Disconnect logout_ok]);
      vm_compute; reflexivity.
Defined.

(** C1, as the specification states it, fails when a second socket is
    open.  After a second connect sockets 0 and 1 are both open; socket 1
    closes as logged out and the manager is disconnected; with no connect
    called since, an open event of socket 0 sets it connected again, and a
    lost connection of socket 0 makes it reconnect by itself. *)
Lemma logged_out_close_with_second_socket :
  exists w1,
    run [Connect init_ok;
         ConnectionUpdateOn 1 (update_close loggedOut) init_ok]
      (startup init_ok None) = Some w1
    /\ isConnected w1 = false
    /\ init_calls w1 = 2
    /\ (exists w2,
          run [ConnectionUpdateOn 0 update_open init_ok] w1 = Some w2
          /\ isConnected w2 = true)
    /\ (exists w3,
          run [ConnectionUpdateOn 0 (update_close connectionLost) init_ok] w1
          = Some w3
          /\ init_calls w3 = 3).
Proof.
  eexists. split; [vm_compute; reflexivity|].
  split; [reflexivity|]. split; [reflexivity|].
  split; eexists; (split; [vm_compute; reflexivity|]); reflexivity.
Qed.

(** ** One socket at a time *)

Section Listening.

Lemma send_keeps_listening env telefone mensagem w :
  listening (snd (enviarMensagemBaileys env telefone mensagem w))
  = listening w.
Proof.
  unfold enviarMensagemBaileys, sendMessage. unfold_eff.
  destruct (sock w); [destruct (isConnected w)|]; try reflexivity.
  destruct env; reflexivity.
Qed.

Lemma disconnect_listening env w :
  length (listening (snd (disconnectWhatsApp env w)))
  <= length (listening w).
Proof.
  unfold disconnectWhatsApp, logout. unfold_eff.
  destruct (sock w) as [s|]; simpl; [|lia].
  destruct (logout_throws env); simpl; [lia|].
  destruct (authDir w); simpl;
    [destruct (rmSync_throws env); simpl|]; apply remove_shrinks.
Qed.

Lemma update_listening env update w :
  length (listening w) <= length (listening (snd (onConnectionUpdate env update w)))
  /\ length (listening (snd (onConnectionUpdate env update w)))
     <= S (length (listening w)).
Proof.
  unfold onConnectionUpdate.
  destruct (connection update) as [[| |]|];
    try (unfold_eff; destruct (Js.truthy (qr update)); simpl; lia).
  destruct (not_loggedOut (disconnectStatusCode update));
    [|unfold_eff; destruct (Js.truthy (qr update)); simpl; lia].
  set (w1 := set_isConnected false
               (if Js.truthy (qr update) then set_qrCode (qr update) w
                else w)).
  assert (Hl : listening w1 = listening w)
    by (unfold w1; destruct (Js.truthy (qr update)); reflexivity).
  assert (Hrun :
    listening (snd ((Eff.when (Js.truthy (qr update))
              (Eff.modify (set_qrCode (qr update))) ;;
            Eff.modify (set_isConnected false) ;;
            Eff.when true (initWhatsAppConnection env ;; Eff.ret tt))%eff w))
    = listening (snd (initWhatsAppConnection env w1))).
  { unfold w1. unfold Eff.when at 1 2. unfold Eff.bind at 1 2 3.
    unfold Eff.modify, Eff.ret.
    destruct (Js.truthy (qr update)); simpl;
      match goal with
      | |- context [initWhatsAppConnection env ?x] =>
          destruct (initWhatsAppConnection env x) as [[?|?] ?]
      end; reflexivity. }
  rewrite Hrun.
  destruct (init_listening env w1) as [-> | ->]; rewrite Hl;
    [|rewrite length_app; simpl]; lia.
Qed.

Lemma update_not_close_listening env update w :
  closes update = false ->
  listening (snd (onConnectionUpdate env update w)) = listening w.
Proof.
  unfold closes, onConnectionUpdate.
  destruct (connection update) as [[| |]|]; try discriminate; intros _;
    unfold_eff; destruct (Js.truthy (qr update)); reflexivity.
Qed.

Lemma one_socket_step a w w' :
  length (listening w) <= 1 ->
  (is_Connect a = true -> listening w = []) ->
  step a w = Some w' ->
  length (listening w') <= 1.
Proof.
  intros Hone Hidle Hstep.
  destruct a as [e|s u e|s c|e t m|e]; simpl in Hstep.
  - inversion Hstep; subst; clear Hstep.
    specialize (Hidle eq_refl).
    destruct (init_listening e w) as [-> | ->]; rewrite Hidle; simpl; lia.
  - destruct (is_listening s w) eqn:Hs; [|discriminate].
    inversion Hstep; subst; clear Hstep. unfold deliver.
    destruct (closes u) eqn:Hu.
    + pose proof (listening_short s w Hs Hone) as Hl.
      match goal with
      | |- context [onConnectionUpdate e u ?x] =>
          destruct (update_listening e u x) as [_ Hup];
          replace (listening x) with (@nil SockId) in Hup
            by (simpl; rewrite Hl, remove_only; reflexivity)
      end.
      exact Hup.
    + now rewrite update_not_close_listening.
  - destruct (is_listening s w); [|discriminate].
    inversion Hstep; subst; clear Hstep.
    unfold onCredsUpdate. unfold_eff. simpl.
    destruct (authDir w); exact Hone.
  - inversion Hstep; subst; clear Hstep.
    now rewrite send_keeps_listening.
  - inversion Hstep; subst; clear Hstep.
    pose proof (disconnect_listening e w). lia.
Qed.

Lemma one_socket_run acts : forall w w',
  length (listening w) <= 1 ->
  connects_when_idle acts w ->
  run acts w = Some w' ->
  length (listening w') <= 1.
Proof.
  induction acts as [|a rest IH]; simpl; intros w w' Hone Hidle Hrun.
  - now inversion Hrun; subst.
  - destruct Hidle as [Ha Hrest].
    destruct (step a w) as [w1|] eqn:Hstep; [|discriminate].
    apply (IH w1 w'); auto.
    apply (one_socket_step a w w1); auto.
Qed.

End Listening.

(** C2, as the code has it.  [initWhatsAppConnection] has no guard: in
    every state, when nothing throws, it opens a new socket and makes it the
    current one, and the sockets that were open stay open.  At most one
    socket is open as long as every explicit connect happens while none is:
    that holds along every run from the start of the module, whatever the
    transport delivers and whatever fails. *)
Theorem connect_unguarded_single_socket_when_idle :
  (forall w,
     fst (initWhatsAppConnection init_ok w)
     = Returns {| init_success := true; init_error := None |}
     /\ sock (snd (initWhatsAppConnection init_ok w)) = Some (nextSock w)
     /\ listening (snd (initWhatsAppConnection init_ok w))
        = listening w ++ [nextSock w])
  /\ (forall env store acts w',
        connects_when_idle acts (startup env store) ->
        run acts (startup env store) = Some w' ->
        length (listening w') <= 1).
Proof.
  split; [exact init_ok_opens|].
  intros env store acts w' Hidle Hrun.
  apply (one_socket_run acts (startup env store) w'); auto.
  unfold startup.
  destruct (init_listening env (boot store)) as [-> | ->]; simpl; lia.
Qed.

Lemma connect_unguarded_single_socket_when_idle_witness :
  exists w',
    run [ConnectionUpdateOn 0 update_open init_ok;
         ConnectionUpdateOn 0 (update_close connectionLost) init_ok;
         ConnectionUpdateOn 1 (update_close loggedOut) init_ok;
         Connect init_ok]
      (startup init_ok None) = Some w'
    /\ length (listening w') <= 1.
Proof.
  eexists. split; [vm_compute; reflexivity|].
  apply (proj2 connect_unguarded_single_socket_when_idle init_ok None
           [ConnectionUpdateOn 0 update_open init_ok;
            ConnectionUpdateOn 0 (update_close connectionLost) init_ok;
            ConnectionUpdateOn 1 (update_close loggedOut) init_ok;
            Connect init_ok]).
  - vm_compute. repeat split; discriminate.
  - vm_compute; reflexivity.
Defined.

(** C2, as the specification states it, fails: a second connect while the
    first socket is still connecting is neither rejected nor ignored, and
    two sockets are open afterwards. *)
Lemma second_connect_opens_second_socket :
  listening (startup init_ok None) = [0]
  /\ isConnected (startup init_ok None) = false
  /\ exists w',
       run [Connect init_ok] (startup init_ok None) = Some w'
       /\ listening w' = [0; 1]
       /\ sock w' = Some 1.
Proof.
  split; [reflexivity|]. split; [reflexivity|].
  eexists. split; [reflexivity|]. split; reflexivity.
Qed.

(** ** The pairing code *)

(** C4 fails on the close path.  The listener clears [qrCode] when the
    connection opens, and [disconnectWhatsApp] clears it on logout, but the
    close branch sets [isConnected] only: a close event without a code of
    its own leaves [qrCode] as it was, whatever the reason.  After a
    pairing code and a logged-out close the manager is disconnected, no
    socket is open, and the status still carries the code. *)
Theorem close_event_keeps_pairing_code :
  (forall w s code env,
     qrCode (deliver s (update_close code) env w) = qrCode w)
  /\ (forall w env,
        qrCode (snd (onConnectionUpdate env update_open w)) = None)
  /\ exists w',
       run [ConnectionUpdateOn 0 (update_qr "ABC123") init_ok;
            ConnectionUpdateOn 0 (update_close loggedOut) init_ok]
         (startup init_ok None) = Some w'
       /\ getWhatsAppStatus w'
          = {| st_connected := false; st_qrCode := Some "ABC123" |}
       /\ listening w' = []
       /\ init_calls w' = 1.
Proof.
  split; [|split].
  - intros w s code env. unfold deliver. simpl closes. cbv iota.
    unfold onConnectionUpdate. simpl connection. simpl qr. simpl Js.truthy.
    cbv iota.
    destruct (not_loggedOut (disconnectStatusCode (update_close code))).
    + unfold Eff.when at 1 2. unfold Eff.bind at 1 2 3.
      unfold Eff.modify, Eff.ret. simpl.
      match goal with
      | |- context [initWhatsAppConnection env ?x] =>
          pose proof (init_keeps_status env x) as Hst;
          destruct (initWhatsAppConnection env x) as [[?|?] w1]
      end; simpl in *; now inversion Hst.
    + reflexivity.
  - intros w env. reflexivity.
  - eexists. split; [vm_compute; reflexivity|].
    repeat split; reflexivity.
Qed.

(** ** Logout *)

(** C5, as the code has it.  When [disconnectWhatsApp] returns: if there
    was a socket, the status is disconnected without pairing code, the
    socket variable is empty and [AUTH_DIR] is gone, so no credentials are
    left to load; if there was none, nothing at all was done. *)
Theorem disconnect_clears_when_socket (env : LogoutEnv) (w : World) :
  fst (disconnectWhatsApp env w) = Returns tt ->
  let w' := snd (disconnectWhatsApp env w) in
  match sock w with
  | Some s =>
      getWhatsAppStatus w' = {| st_connected := false; st_qrCode := None |}
      /\ sock w' = None
      /\ authDir w' = None
      /\ load w' = None
      /\ In (CallLogout s) (calls w')
  | None => w' = w
  end.
Proof.
  unfold disconnectWhatsApp, logout, load. unfold_eff.
  destruct (sock w) as [s|]; simpl; [|reflexivity].
  destruct (logout_throws env); simpl; [discriminate|].
  destruct (authDir w) eqn:Hd; simpl.
  - destruct (rmSync_throws env); simpl; [discriminate|].
    intros _. repeat split; auto.
    rewrite !in_app_iff. simpl. auto.
  - intros _. rewrite Hd. repeat split; auto.
    rewrite !in_app_iff. simpl. auto.
Qed.

Lemma disconnect_clears_when_socket_witness :
  getWhatsAppStatus
    (snd (disconnectWhatsApp logout_ok
            (deliver 0 (update_qr "ABC123") init_ok
               (startup init_ok (Some (Some "creds"))))))
  = {| st_connected := false; st_qrCode := None |}
  /\ load
       (snd (disconnectWhatsApp logout_ok
               (deliver 0 (update_qr "ABC123") init_ok
                  (startup init_ok (Some (Some "creds")))))) = None.
Proof.
  generalize (disconnect_clears_when_socket logout_ok
                (deliver 0 (update_qr "ABC123") init_ok
                   (startup init_ok (Some (Some "creds"))))).
  vm_compute. intros H.
  destruct (H eq_refl) as (Hst & _ & _ & Hload & _).
  split; [exact Hst|exact Hload].
Defined.

(** C5, as the specification states it, fails: when the start-up connect
    threw before a socket existed, the credentials of an earlier run are
    still under [AUTH_DIR], and [disconnectWhatsApp] returns without
    touching them. *)
Lemma disconnect_without_socket_keeps_credentials :
  sock (startup auth_fails (Some (Some "creds"))) = None
  /\ fst (disconnectWhatsApp logout_ok
            (startup auth_fails (Some (Some "creds")))) = Returns tt
  /\ load (snd (disconnectWhatsApp logout_ok
                  (startup auth_fails (Some (Some "creds")))))
     = Some "creds".
Proof. repeat split; vm_compute; reflexivity. Qed.

(** ** The notification gateway *)

Import Routers.

Lemma send_returns env telefone mensagem w :
  exists resultado,
    fst (enviarMensagemBaileys env telefone mensagem w) = Returns resultado.
Proof.
  unfold enviarMensagemBaileys, sendMessage. unfold_eff.
  destruct (sock w); [destruct (isConnected w)|]; simpl;
    try (eexists; reflexivity).
  destruct env; simpl; eexists; reflexivity.
Qed.

(** C8, as the code has it.  For a client that exists and has a phone,
    [mensagens.create] calls the sender once and then inserts one row made
    of the input, the user, the status ("enviada" with the current time
    after a success, "erro" with no time after a failure); the message
    identifier is in the value returned to the caller only.  After a failed
    send the procedure throws the sender's error (or the default text).  When
    the insert itself throws, no row is added and that error is thrown. *)
Theorem mensagens_create_persists_one_row (env : CreateEnv)
  (input : MensagemInput) (user_id : option Z) (app : App)
  (cliente : Cliente) (telefone : string) :
  db_handle (db app) = true ->
  find (fun c => Z.eqb (cliente_id c) (clienteId input)) (clientes (db app))
  = Some cliente ->
  cliente_telefone cliente = Some telefone ->
  Js.truthy (Some telefone) = true ->
  exists resultado w1,
    enviarMensagemBaileys (send_env env) telefone (conteudo input) (world app)
    = (Returns resultado, w1)
    /\ let out := mensagens_create env input user_id app in
       let row :=
         {| m_clienteId := clienteId input;
            m_tipo := tipo input;
            m_conteudo := conteudo input;
            m_status := if success resultado then enviada else erro;
            m_dataEnvio := if success resultado then Some (now env) else None;
            m_usuarioId := user_id |} in
       world (snd out) = w1
       /\ match insert_throws env with
          | None =>
              mensagens (db (snd out)) = mensagens (db app) ++ [row]
              /\ fst out
                 = if success resultado
                   then Returns {| out_success := true;
                                   out_messageId := messageId resultado |}
                   else Throws {| message :=
                                    Some (Js.or_else (error resultado)
                                            "Erro ao enviar mensagem") |}
          | Some e =>
              mensagens (db (snd out)) = mensagens (db app)
              /\ fst out = Throws e
          end.
Proof.
  intros Hdb Hfind Htel Htruthy.
  destruct (send_returns (send_env env) telefone (conteudo input) (world app))
    as [resultado Hres].
  destruct (enviarMensagemBaileys (send_env env) telefone (conteudo input)
              (world app)) as [r w1] eqn:Hsend.
  simpl in Hres. subst r.
  exists resultado, w1. split; [reflexivity|].
  unfold mensagens_create, getClienteById, createMensagem, lift_world.
  unfold_eff. rewrite Hdb. simpl. rewrite Hfind, Htel.
  destruct telefone as [|c t]; [discriminate|]. simpl.
  rewrite Hsend. simpl. rewrite Hdb. simpl.
  destruct (insert_throws env); simpl; [auto|].
  destruct (success resultado); simpl; auto.
Qed.

Lemma mensagens_create_persists_one_row_witness :
  exists resultado w1,
    enviarMensagemBaileys (send_env (accepts_with "m1")) "88 99671-0011"
      (conteudo input_manual) (world app_open)
    = (Returns resultado, w1)
    /\ mensagens (db (snd (mensagens_create (accepts_with "m1") input_manual
                             (Some 3%Z) app_open)))
       = [{| m_clienteId := 7; m_tipo := manual; m_conteudo := "hello";
             m_status := if success resultado then enviada else erro;
             m_dataEnvio :=
               if success resultado then Some 1700000000000%Z else None;
             m_usuarioId := Some 3%Z |}].
Proof.
  destruct (mensagens_create_persists_one_row (accepts_with "m1")
              input_manual (Some 3%Z) app_open
              {| cliente_id := 7; cliente_telefone := Some "88 99671-0011" |}
              "88 99671-0011" eq_refl eq_refl eq_refl eq_refl)
    as (resultado & w1 & Hsend & H).
  exists resultado, w1. split; [exact Hsend|].
  destruct H as (_ & Hrow & _). exact Hrow.
Defined.

(** C8, as the specification states it, fails in one point: the row does
    not hold the identifier the transport returned.  Two sends that differ
    in that identifier only leave the same table behind, while the callers
    receive "m1" and "m2". *)
Lemma delivery_row_lacks_message_id :
  db (snd (mensagens_create (accepts_with "m1") input_manual (Some 3%Z)
             app_open))
  = db (snd (mensagens_create (accepts_with "m2") input_manual (Some 3%Z)
               app_open))
  /\ fst (mensagens_create (accepts_with "m1") input_manual (Some 3%Z)
            app_open)
     = Returns {| out_success := true; out_messageId := Some "m1" |}
  /\ fst (mensagens_create (accepts_with "m2") input_manual (Some 3%Z)
            app_open)
     = Returns {| out_success := true; out_messageId := Some "m2" |}
  /\ mensagens
       (db (snd (mensagens_create (accepts_with "m1") input_manual
                   (Some 3%Z) app_open)))
     = [{| m_clienteId := 7; m_tipo := manual; m_conteudo := "hello";
           m_status := enviada; m_dataEnvio := Some 1700000000000%Z;
           m_usuarioId := Some 3%Z |}].
Proof. repeat split; vm_compute; reflexivity. Qed.

(** * Further properties of the session manager *)

Import Lifecycle.

Section Listener.

Variables (env : InitEnv) (update : ConnectionUpdate) (w : World).

(** The store in which the close branch decides whether to reconnect. *)
Lemma close_branch :
  connection update = Some ConnClose ->
  snd (onConnectionUpdate env update w)
  = let w1 := set_isConnected false
                (if Js.truthy (qr update) then set_qrCode (qr update) w
                 else w) in
    if not_loggedOut (disconnectStatusCode update)
    then snd (initWhatsAppConnection env w1)
    else w1.
Proof.
  intros Hclose. unfold onConnectionUpdate. rewrite Hclose.
  destruct (not_loggedOut (disconnectStatusCode update)).
  - unfold Eff.when at 1 2. unfold Eff.bind at 1 2 3.
    unfold Eff.modify, Eff.ret.
    destruct (Js.truthy (qr update)); simpl;
      match goal with
      | |- context [initWhatsAppConnection env ?x] =>
          destruct (initWhatsAppConnection env x) as [[?|?] ?]
      end; reflexivity.
  - unfold_eff. destruct (Js.truthy (qr update)); reflexivity.
Qed.

Lemma close_branch_disconnected :
  connection update = Some ConnClose ->
  isConnected (snd (onConnectionUpdate env update w)) = false.
Proof.
  intros Hclose. rewrite close_branch by exact Hclose. cbv zeta.
  destruct (not_loggedOut (disconnectStatusCode update)).
  - match goal with
    | |- context [initWhatsAppConnection env ?x] =>
        pose proof (init_keeps_status env x) as Hst
    end.
    apply (f_equal st_connected) in Hst. exact Hst.
  - reflexivity.
Qed.

End Listener.

(** X1. For a transport that resolves, or that rejects with an [Error]
    (an object; its message, when present, a string), [enviarMensagemBaileys]
    does not throw and what it returns is well formed whatever the state: a
    success has a non-empty [messageId] and no [error], a failure a
    non-empty [error] and no [messageId].  A rejection with a socket and the
    connection set is returned as a failure whose error is the message of
    what was thrown, or "Erro ao enviar mensagem" when that is missing or
    empty. *)
Theorem send_result_well_formed (env : SendEnv) (telefone mensagem : string)
  (w : World) :
  exists r,
    fst (enviarMensagemBaileys env telefone mensagem w) = Returns r
    /\ well_formed r
    /\ (forall e s,
          env = SendRejects e ->
          sock w = Some s ->
          isConnected w = true ->
          r = {| success := false;
                 error := Some (Js.or_else (message e)
                                  "Erro ao enviar mensagem");
                 messageId := None |}).
Proof.
  unfold enviarMensagemBaileys, sendMessage, well_formed. unfold_eff.
  destruct (sock w) as [s|]; [destruct (isConnected w)|]; simpl.
  - destruct env as [result|e]; simpl.
    + eexists. split; [reflexivity|]. simpl. split; [|discriminate].
      split; [reflexivity|].
      destruct (result_key_id result) as [[|c id]|]; simpl;
        eexists; split; try reflexivity; discriminate.
    + eexists. split; [reflexivity|]. simpl. split.
      * split; [reflexivity|].
        destruct (message e) as [[|c text]|]; simpl;
          eexists; split; try reflexivity; discriminate.
      * intros e' s' He' _ _. inversion He'; subst. reflexivity.
  - eexists. split; [reflexivity|]. simpl. split; [|discriminate].
    split; [reflexivity|].
    eexists. split; [reflexivity|]. discriminate.
  - eexists. split; [reflexivity|]. simpl. split; [|discriminate].
    split; [reflexivity|].
    eexists. split; [reflexivity|]. discriminate.
Qed.

Lemma send_result_well_formed_witness :
  exists r,
    fst (enviarMensagemBaileys
           (SendRejects {| message := Some "Connection Closed" |})
           "88 99671-0011" "hello"
           (set_isConnected true (startup init_ok None))) = Returns r
    /\ r = {| success := false; error := Some "Connection Closed";
              messageId := None |}.
Proof.
  destruct (send_result_well_formed
              (SendRejects {| message := Some "Connection Closed" |})
              "88 99671-0011" "hello"
              (set_isConnected true (startup init_ok None)))
    as (r & Hr & _ & Hmap).
  exists r. split; [exact Hr|].
  apply (Hmap {| message := Some "Connection Closed" |} 0);
    reflexivity.
Defined.

Lemma send_keeps_status env telefone mensagem w :
  getWhatsAppStatus (snd (enviarMensagemBaileys env telefone mensagem w))
  = getWhatsAppStatus w.
Proof.
  unfold enviarMensagemBaileys, sendMessage. unfold_eff.
  destruct (sock w); [destruct (isConnected w) eqn:Hc|]; simpl;
    try reflexivity.
  destruct env; simpl; unfold getWhatsAppStatus; simpl; now rewrite Hc.
Qed.

(** X2. A send changes nothing but the call log: the socket variable, the
    connected flag, the pairing code, the credentials and the open sockets
    are as before, whether the message was sent, refused or failed. *)
Theorem send_changes_only_call_log (env : SendEnv)
  (telefone mensagem : string) (w : World) :
  let w' := snd (enviarMensagemBaileys env telefone mensagem w) in
  sock w' = sock w
  /\ getWhatsAppStatus w' = getWhatsAppStatus w
  /\ authDir w' = authDir w
  /\ listening w' = listening w
  /\ nextSock w' = nextSock w
  /\ exists sent, calls w' = calls w ++ sent /\ length sent <= 1.
Proof.
  unfold enviarMensagemBaileys, sendMessage. unfold_eff.
  destruct (sock w) as [s|] eqn:Hs; [destruct (isConnected w) eqn:Hc|];
    simpl.
  - destruct env; simpl; rewrite ?Hs;
      (repeat (split; [reflexivity|]));
      eexists; (split; [reflexivity|]); simpl; lia.
  - rewrite Hs. repeat (split; [reflexivity|]).
    exists []. rewrite app_nil_r. simpl. split; [reflexivity|lia].
  - rewrite Hs. repeat (split; [reflexivity|]).
    exists []. rewrite app_nil_r. simpl. split; [reflexivity|lia].
Qed.


(** X4. Connecting touches neither the status nor the credentials: the
    connected flag and the pairing code are what they were, and what a
    later load of [AUTH_DIR] finds is what it would have found before,
    whether the connect succeeds or fails. *)
Theorem init_keeps_status_and_credentials (env : InitEnv) (w : World) :
  getWhatsAppStatus (snd (initWhatsAppConnection env w)) = getWhatsAppStatus w
  /\ load (snd (initWhatsAppConnection env w)) = load w.
Proof.
  split; [apply init_keeps_status|].
  run_init. unfold load.
  destruct (authDir w) as [d|] eqn:Hd; simpl;
    destruct (mkdirSync_throws env); simpl;
    destruct (useMultiFileAuthState_throws env); simpl;
    destruct (fetchLatestBaileysVersion_throws env); simpl;
    destruct (makeWASocket_throws env); simpl; rewrite ?Hd; reflexivity.
Qed.

Section Runs.

Lemma step_connected a w w' :
  step a w = Some w' -> isConnected w' = true ->
  isConnected w = true \/ is_open_event a = true.
Proof.
  intros Hstep Hc.
  destruct a as [e|s u e|s c|e t m|e]; simpl in *.
  - inversion Hstep; subst; clear Hstep.
    pose proof (f_equal st_connected (init_keeps_status e w)) as Hst.
    simpl in Hst. left. congruence.
  - destruct (is_listening s w); [|discriminate].
    inversion Hstep; subst; clear Hstep. unfold deliver in Hc.
    destruct (connection u) as [[| |]|] eqn:Hu; auto.
    + left. unfold closes in Hc. rewrite Hu in Hc.
      unfold onConnectionUpdate in Hc. rewrite Hu in Hc.
      unfold_eff. destruct (Js.truthy (qr u)); exact Hc.
    + rewrite close_branch_disconnected in Hc by exact Hu. discriminate.
    + left. unfold closes in Hc. rewrite Hu in Hc.
      unfold onConnectionUpdate in Hc. rewrite Hu in Hc.
      unfold_eff. destruct (Js.truthy (qr u)); exact Hc.
  - destruct (is_listening s w); [|discriminate].
    inversion Hstep; subst; clear Hstep. left.
    unfold onCredsUpdate in Hc. unfold_eff. simpl in Hc.
    destruct (authDir w); exact Hc.
  - inversion Hstep; subst; clear Hstep. left.
    pose proof (f_equal st_connected (send_keeps_status e t m w)) as Hst.
    simpl in Hst. congruence.
  - inversion Hstep; subst; clear Hstep. left.
    unfold disconnectWhatsApp, logout in Hc. unfold_eff.
    destruct (sock w); simpl in Hc; [|exact Hc].
    destruct (logout_throws e); simpl in Hc; [exact Hc|].
    destruct (authDir w); simpl in Hc;
      [destruct (rmSync_throws e); simpl in Hc|]; discriminate.
Qed.

End Runs.

(** X5. The manager reports connected only after the transport said so:
    along any run of calls and events, if [isConnected] is set at the end
    it was set at the beginning or the run contains an open event. *)
Theorem connected_only_after_open (acts : list Action) :
  forall w w',
    run acts w = Some w' ->
    isConnected w' = true ->
    isConnected w = true \/ existsb is_open_event acts = true.
Proof.
  induction acts as [|a rest IH]; simpl; intros w w' Hrun Hc.
  - inversion Hrun; subst. now left.
  - destruct (step a w) as [w1|] eqn:Hstep; [|discriminate].
    destruct (IH w1 w' Hrun Hc) as [H1|Hrest].
    + destruct (step_connected a w w1 Hstep H1) as [H|H]; [now left|].
      right. now rewrite H.
    + right. rewrite Hrest. apply orb_true_r.
Qed.

Lemma connected_only_after_open_witness :
  isConnected (startup init_ok None) = true
  \/ existsb is_open_event
       [ConnectionUpdateOn 0 (update_qr "ABC123") init_ok;
        ConnectionUpdateOn 0 update_open init_ok] = true.
Proof.
  apply (connected_only_after_open
           [ConnectionUpdateOn 0 (update_qr "ABC123") init_ok;
            ConnectionUpdateOn 0 update_open init_ok]
           (startup init_ok None)
           (set_isConnected true (startup init_ok None)));
    vm_compute; reflexivity.
Defined.

Lemma listening_after_append s l : existsb (Nat.eqb s) (l ++ [s]) = true.
Proof.
  rewrite existsb_app. simpl. rewrite Nat.eqb_refl. apply orb_true_r.
Qed.

(** X6. The manager heals itself: when an open socket closes with any code
    other than [loggedOut] and the reconnect meets no error, the new socket
    is the current one and the only change to the open sockets; as soon as
    it reports open the status is connected, without pairing code, and no
    call from outside was needed. *)
Theorem transient_close_then_open_reconnects (w : World) (s : SockId)
  (code : Z) :
  is_listening s w = true ->
  code <> loggedOut ->
  exists w',
    run [ConnectionUpdateOn s (update_close code) init_ok;
         ConnectionUpdateOn (nextSock w) update_open init_ok] w = Some w'
    /\ getWhatsAppStatus w' = {| st_connected := true; st_qrCode := None |}
    /\ sock w' = Some (nextSock w)
    /\ listening w' = List.remove Nat.eq_dec s (listening w) ++ [nextSock w].
Proof.
  intros Hs Hcode.
  assert (Hnl : not_loggedOut (disconnectStatusCode (update_close code)) = true).
  { simpl. apply negb_true_iff. now apply Z.eqb_neq. }
  set (w0 := set_listening (List.remove Nat.eq_dec s (listening w)) w).
  set (w1 := set_isConnected false w0).
  assert (Hd : deliver s (update_close code) init_ok w
               = snd (initWhatsAppConnection init_ok w1)).
  { unfold deliver. change (closes (update_close code)) with true. cbv iota.
    rewrite close_branch by reflexivity. cbv zeta. rewrite Hnl.
    reflexivity. }
  destruct (init_ok_opens w1) as (_ & Hsock & Hlist).
  set (w2 := snd (initWhatsAppConnection init_ok w1)) in *.
  exists (deliver (nextSock w) update_open init_ok w2).
  split.
  - simpl. rewrite Hs, Hd. fold w2.
    assert (Hl2 : is_listening (nextSock w) w2 = true).
    { unfold is_listening. rewrite Hlist. apply listening_after_append. }
    now rewrite Hl2.
  - unfold deliver. change (closes update_open) with false. cbv iota.
    unfold onConnectionUpdate. simpl. unfold_eff. simpl.
    repeat split; assumption.
Qed.

Lemma transient_close_then_open_reconnects_witness :
  exists w',
    run [ConnectionUpdateOn 0 (update_close connectionLost) init_ok;
         ConnectionUpdateOn 1 update_open init_ok] (startup init_ok None)
    = Some w'
    /\ getWhatsAppStatus w' = {| st_connected := true; st_qrCode := None |}.
Proof.
  destruct (transient_close_then_open_reconnects (startup init_ok None) 0
              connectionLost eq_refl) as (w' & Hrun & Hst & _).
  - discriminate.
  - exists w'. split; [exact Hrun|exact Hst].
Defined.





(** X8. When [sock.logout()] throws, [disconnectWhatsApp] throws the same
    error and resets nothing: the socket variable, the status, the
    credentials and the open sockets are as before. *)
Theorem disconnect_failure_keeps_session (env : LogoutEnv) (w : World)
  (s : SockId) (e : JsError) :
  sock w = Some s ->
  logout_throws env = Some e ->
  fst (disconnectWhatsApp env w) = Throws e
  /\ let w' := snd (disconnectWhatsApp env w) in
     sock w' = Some s
     /\ getWhatsAppStatus w' = getWhatsAppStatus w
     /\ load w' = load w
     /\ listening w' = listening w
     /\ calls w' = calls w ++ [CallLogout s].
Proof.
  intros Hs He. unfold disconnectWhatsApp, logout. unfold_eff.
  rewrite Hs. simpl. rewrite He. simpl. repeat split; auto.
Qed.

Lemma disconnect_failure_keeps_session_witness :
  fst (disconnectWhatsApp
         {| logout_throws := Some {| message := Some "Connection Closed" |};
            rmSync_throws := None |}
         (startup init_ok (Some (Some "creds"))))
  = Throws {| message := Some "Connection Closed" |}.
Proof.
  apply (proj1 (disconnect_failure_keeps_session
                  {| logout_throws :=
                       Some {| message := Some "Connection Closed" |};
                     rmSync_throws := None |}
                  (startup init_ok (Some (Some "creds"))) 0
                  {| message := Some "Connection Closed" |}
                  eq_refl eq_refl)).
Defined.

(** X9. A pairing code is shown until the connection opens: after an update
    that carries a non-empty [qr] and no connection change, the status
    reports that code with the connected flag as it was; after an update
    with [connection: "open"], whether or not it carries a [qr], the status
    is connected without code.  Neither touches the socket variable or the
    open sockets. *)
Theorem pairing_code_shown_until_open (env : InitEnv) (w : World) :
  (forall code,
     code <> "" ->
     let w' := snd (onConnectionUpdate env (update_qr code) w) in
     getWhatsAppStatus w'
     = {| st_connected := isConnected w; st_qrCode := Some code |}
     /\ sock w' = sock w /\ listening w' = listening w)
  /\ (forall update,
        connection update = Some ConnOpen ->
        let w' := snd (onConnectionUpdate env update w) in
        getWhatsAppStatus w'
        = {| st_connected := true; st_qrCode := None |}
        /\ sock w' = sock w /\ listening w' = listening w).
Proof.
  split.
  - intros code Hcode. unfold onConnectionUpdate. simpl. unfold_eff.
    destruct code; [contradiction|]. simpl. repeat split.
  - intros update Hopen. unfold onConnectionUpdate. rewrite Hopen.
    unfold_eff. destruct (Js.truthy (qr update)); simpl; repeat split.
Qed.

Lemma pairing_code_shown_until_open_witness :
  getWhatsAppStatus
    (snd (onConnectionUpdate init_ok (update_qr "ABC123")
            (startup init_ok None)))
  = {| st_connected := false; st_qrCode := Some "ABC123" |}.
Proof.
  apply (proj1 (pairing_code_shown_until_open init_ok
                  (startup init_ok None)) "ABC123").
  discriminate.
Defined.

(** * Further properties of the notification gateway *)

(** X10. [mensagens.create] stops before sending when it has no recipient:
    with no database handle or no client of that identifier it throws
    "Cliente não encontrado", with a client whose phone is missing or empty
    it throws "Cliente não possui telefone cadastrado"; in both cases the
    transport is not called and no row is written. *)
Theorem mensagens_create_without_recipient (env : CreateEnv)
  (input : MensagemInput) (user_id : option Z) (app : App) :
  (db_handle (db app) = false
   \/ find (fun c => Z.eqb (cliente_id c) (clienteId input))
        (clientes (db app)) = None ->
   mensagens_create env input user_id app
   = (Throws {| message := Some "Cliente não encontrado" |}, app))
  /\ (forall cliente,
        db_handle (db app) = true ->
        find (fun c => Z.eqb (cliente_id c) (clienteId input))
          (clientes (db app)) = Some cliente ->
        Js.truthy (cliente_telefone cliente) = false ->
        mensagens_create env input user_id app
        = (Throws
             {| message := Some "Cliente não possui telefone cadastrado" |},
           app)).
Proof.
  split.
  - intros H. unfold mensagens_create, getClienteById. unfold_eff.
    destruct H as [H|H].
    + rewrite H. reflexivity.
    + destruct (db_handle (db app)); simpl; [rewrite H|]; reflexivity.
  - intros cliente Hdb Hfind Htel.
    unfold mensagens_create, getClienteById. unfold_eff.
    rewrite Hdb. simpl. rewrite Hfind.
    destruct (cliente_telefone cliente) as [[|c t]|];
      try discriminate; reflexivity.
Qed.

Lemma mensagens_create_without_recipient_witness :
  mensagens_create (accepts_with "m1")
    {| clienteId := 8; tipo := manual; conteudo := "hello" |} (Some 3%Z)
    app_open
  = (Throws {| message := Some "Cliente não encontrado" |}, app_open).
Proof.
  apply (proj1 (mensagens_create_without_recipient (accepts_with "m1")
                  {| clienteId := 8; tipo := manual; conteudo := "hello" |}
                  (Some 3%Z) app_open)).
  right. reflexivity.
Defined.

(** X11. While the manager is not connected, a notification for a client
    with a phone reaches no transport, is recorded with status "erro" and
    no send date, and is answered by throwing the not-connected text. *)
Theorem mensagens_create_when_not_connected (env : CreateEnv)
  (input : MensagemInput) (user_id : option Z) (app : App)
  (cliente : Cliente) (telefone : string) :
  db_handle (db app) = true ->
  find (fun c => Z.eqb (cliente_id c) (clienteId input)) (clientes (db app))
  = Some cliente ->
  cliente_telefone cliente = Some telefone ->
  Js.truthy (Some telefone) = true ->
  insert_throws env = None ->
  sock (world app) = None \/ isConnected (world app) = false ->
  let out := mensagens_create env input user_id app in
  fst out = Throws {| message := Some not_connected_error |}
  /\ world (snd out) = world app
  /\ mensagens (db (snd out))
     = mensagens (db app)
       ++ [{| m_clienteId := clienteId input;
              m_tipo := tipo input;
              m_conteudo := conteudo input;
              m_status := erro;
              m_dataEnvio := None;
              m_usuarioId := user_id |}].
Proof.
  intros Hdb Hfind Htel Htruthy Hins Hclosed.
  unfold mensagens_create, getClienteById, createMensagem, lift_world.
  unfold_eff. rewrite Hdb. simpl. rewrite Hfind, Htel.
  destruct telefone as [|c t]; [discriminate|]. simpl.
  rewrite (send_closed (send_env env) (String c t) (conteudo input)
             (world app) Hclosed).
  simpl. rewrite Hdb. simpl. rewrite Hins. simpl.
  repeat split.
Qed.

Lemma mensagens_create_when_not_connected_witness :
  fst (mensagens_create (accepts_with "m1") input_manual (Some 3%Z)
         {| world := startup init_ok None; db := db app_open |})
  = Throws {| message := Some not_connected_error |}.
Proof.
  apply (mensagens_create_when_not_connected (accepts_with "m1")
           input_manual (Some 3%Z)
           {| world := startup init_ok None; db := db app_open |}
           {| cliente_id := 7; cliente_telefone := Some "88 99671-0011" |}
           "88 99671-0011" eq_refl eq_refl eq_refl eq_refl eq_refl).
  right. reflexivity.
Defined.

(** * The Z-API sender *)

Section ZApiSender.

Variables (env : ZApi.FetchEnv) (telefone mensagem : string).

Lemma or_value_truthy a b :
  ZApi.truthy b = true -> ZApi.truthy (ZApi.or_value a b) = true.
Proof.
  intros Hb. unfold ZApi.or_value.
  destruct (ZApi.truthy a) eqn:Ha; assumption.
Qed.

Lemma or_else_truthy v d :
  d <> "" -> ZApi.truthy (ZApi.JString (Js.or_else v d)) = true.
Proof.
  intros Hd. destruct v as [[|c s]|]; simpl; try reflexivity;
    destruct d; try contradiction; reflexivity.
Qed.

Lemma truthy_nonempty s : Js.truthy (Some s) = true -> s <> "".
Proof. destruct s; [discriminate|discriminate]. Qed.

(** The sender with a usable configuration: what is left of it once the
    three guards are passed. *)
Lemma zapi_configured st config instanceId token :
  ZApi.db_handle st = true ->
  List.head (ZApi.configWhatsapp st) = Some config ->
  ZApi.accountSid config = Some instanceId ->
  ZApi.authToken config = Some token ->
  Js.truthy (Some instanceId) = true ->
  Js.truthy (Some token) = true ->
  ZApi.ativo config = true ->
  ZApi.requests (snd (ZApi.enviarMensagemWhatsApp env telefone mensagem st))
  = ZApi.requests st
    ++ [{| ZApi.url := ZApi.apiUrl instanceId token;
           ZApi.phone := Telefone.telefoneDestino telefone;
           ZApi.message_text := mensagem |}].
Proof.
  intros Hdb Hcfg Hsid Htok Hs Ht Hativo.
  unfold ZApi.enviarMensagemWhatsApp, ZApi.getConfigWhatsapp, ZApi.fetch,
    ZApi.response_json.
  unfold_eff. rewrite Hdb. simpl. rewrite Hcfg, Hsid, Htok.
  destruct instanceId as [|c s]; [discriminate|].
  destruct token as [|c' t]; [discriminate|].
  simpl. rewrite Hativo. simpl.
  destruct env as [e|ok [e|[r|]]]; simpl; try reflexivity;
    destruct ok; reflexivity.
Qed.

End ZApiSender.

(** X12. The Z-API sender makes no request unless it is configured and
    active.  Without a database handle, without a configuration row, or
    with an instance or token that is missing or empty it answers "não
    configurado"; with both but the row inactive it answers "desativado";
    in each case the store, its list of requests included, is untouched
    whatever the gateway would answer. *)
Theorem zapi_guards_before_request (env : ZApi.FetchEnv)
  (telefone mensagem : string) (st : ZApi.Store) :
  (ZApi.db_handle st = false \/ ZApi.configWhatsapp st = [] ->
   ZApi.enviarMensagemWhatsApp env telefone mensagem st
   = (Returns ZApi.not_configured, st))
  /\ (forall config,
        ZApi.db_handle st = true ->
        List.head (ZApi.configWhatsapp st) = Some config ->
        Js.truthy (ZApi.accountSid config) = false
        \/ Js.truthy (ZApi.authToken config) = false ->
        ZApi.enviarMensagemWhatsApp env telefone mensagem st
        = (Returns ZApi.not_configured, st))
  /\ (forall config,
        ZApi.db_handle st = true ->
        List.head (ZApi.configWhatsapp st) = Some config ->
        Js.truthy (ZApi.accountSid config) = true ->
        Js.truthy (ZApi.authToken config) = true ->
        ZApi.ativo config = false ->
        ZApi.enviarMensagemWhatsApp env telefone mensagem st
        = (Returns ZApi.disabled, st)).
Proof.
  unfold ZApi.enviarMensagemWhatsApp, ZApi.getConfigWhatsapp. unfold_eff.
  split; [|split].
  - intros [H|H]; [now rewrite H|].
    rewrite H. destruct (ZApi.db_handle st); reflexivity.
  - intros config Hdb Hcfg H. rewrite Hdb. simpl. rewrite Hcfg.
    destruct (ZApi.accountSid config) as [[|c s]|];
      destruct (ZApi.authToken config) as [[|c' t]|];
      simpl in *; try reflexivity; destruct H; discriminate.
  - intros config Hdb Hcfg Hs Ht Hativo. rewrite Hdb. simpl. rewrite Hcfg.
    destruct (ZApi.accountSid config) as [[|c s]|];
      destruct (ZApi.authToken config) as [[|c' t]|];
      simpl in *; try discriminate.
    now rewrite Hativo.
Qed.

Lemma zapi_guards_before_request_witness :
  ZApi.enviarMensagemWhatsApp (ZApi.FetchRejects {| message := None |})
    "88 99671-0011" "hello"
    {| ZApi.db_handle := true; ZApi.configWhatsapp := [];
       ZApi.requests := [] |}
  = (Returns ZApi.not_configured,
     {| ZApi.db_handle := true; ZApi.configWhatsapp := [];
        ZApi.requests := [] |}).
Proof.
  apply (proj1 (zapi_guards_before_request
                  (ZApi.FetchRejects {| message := None |})
                  "88 99671-0011" "hello"
                  {| ZApi.db_handle := true; ZApi.configWhatsapp := [];
                     ZApi.requests := [] |})).
  right. reflexivity.
Defined.

(** X13. With a configuration row whose instance and token are non-empty
    and which is active, the Z-API sender makes exactly one request,
    whatever the gateway then answers: to the address built from the
    instance and the token, with the text unchanged and a phone made of
    digits only that starts with "55". *)
Theorem zapi_request_shape (env : ZApi.FetchEnv)
  (telefone mensagem : string) (st : ZApi.Store)
  (config : ZApi.ConfigWhatsapp) (instanceId token : string) :
  ZApi.db_handle st = true ->
  List.head (ZApi.configWhatsapp st) = Some config ->
  ZApi.accountSid config = Some instanceId ->
  ZApi.authToken config = Some token ->
  instanceId <> "" -> token <> "" ->
  ZApi.ativo config = true ->
  exists d,
    ZApi.requests (snd (ZApi.enviarMensagemWhatsApp env telefone mensagem st))
    = ZApi.requests st
      ++ [{| ZApi.url :=
               ("https://api.z-api.io/instances/" ++ instanceId ++ "/token/"
                ++ token ++ "/send-text")%string;
             ZApi.phone := d;
             ZApi.message_text := mensagem |}]
    /\ Js.all_digits d = true
    /\ Js.startsWith d "55" = true
    /\ d = Telefone.telefoneFormatado telefone.
Proof.
  intros Hdb Hcfg Hsid Htok Hs Ht Hativo.
  exists (Telefone.telefoneDestino telefone).
  split.
  - apply (zapi_configured env telefone mensagem st config); auto.
    + destruct instanceId; [contradiction|reflexivity].
    + destruct token; [contradiction|reflexivity].
  - rewrite telefoneDestino_eq.
    split; [apply telefoneFormatado_all_digits|].
    split; [apply telefoneFormatado_prefix|reflexivity].
Qed.

Lemma zapi_request_shape_witness :
  exists d,
    ZApi.requests
      (snd (ZApi.enviarMensagemWhatsApp
              (ZApi.FetchRejects {| message := None |})
              "(88) 99671-0011" "hello" ZApi.store_active))
    = [{| ZApi.url :=
            "https://api.z-api.io/instances/INSTANCE/token/TOKEN/send-text";
          ZApi.phone := d;
          ZApi.message_text := "hello" |}]
    /\ d = "5588996710011".
Proof.
  destruct (zapi_request_shape (ZApi.FetchRejects {| message := None |})
              "(88) 99671-0011" "hello" ZApi.store_active
              {| ZApi.accountSid := Some "INSTANCE";
                 ZApi.authToken := Some "TOKEN"; ZApi.ativo := true |}
              "INSTANCE" "TOKEN" eq_refl eq_refl eq_refl eq_refl)
    as (d & Hreq & _ & _ & Hd); try discriminate; try reflexivity.
  exists d. split; [exact Hreq|]. rewrite Hd. vm_compute. reflexivity.
Defined.

(** X14. When [fetch] and [response.json()] resolve or reject with an
    [Error] (an object, as the platform's rejections are), the Z-API sender
    does not throw and what it returns is well formed in every case: not
    configured, inactive, a rejected request, a body that is not JSON or is
    [null], an error status, a success.  A success carries a truthy
    [messageId] and no [error]; a failure a truthy [error] and no
    [messageId]. *)
Theorem zapi_result_well_formed (env : ZApi.FetchEnv)
  (telefone mensagem : string) (st : ZApi.Store) :
  exists r,
    fst (ZApi.enviarMensagemWhatsApp env telefone mensagem st) = Returns r
    /\ if ZApi.success r
       then ZApi.error r = None
            /\ exists v, ZApi.messageId r = Some v /\ ZApi.truthy v = true
       else ZApi.messageId r = None
            /\ exists v, ZApi.error r = Some v /\ ZApi.truthy v = true.
Proof.
  assert (Hfail : forall e,
    exists v,
      Some (ZApi.JString
              (Js.or_else (message e) "Erro desconhecido ao enviar mensagem"))
      = Some v /\ ZApi.truthy v = true).
  { intros e. eexists. split; [reflexivity|].
    apply or_else_truthy. discriminate. }
  unfold ZApi.enviarMensagemWhatsApp, ZApi.getConfigWhatsapp, ZApi.fetch,
    ZApi.response_json.
  unfold_eff.
  destruct (ZApi.db_handle st); simpl;
    [|eexists; split; [reflexivity|]; simpl; split; [reflexivity|];
      eexists; split; reflexivity].
  destruct (ZApi.configWhatsapp st) as [|config rest]; simpl;
    [eexists; split; [reflexivity|]; simpl; split; [reflexivity|];
     eexists; split; reflexivity|].
  destruct (ZApi.accountSid config) as [[|c s]|];
    destruct (ZApi.authToken config) as [[|c' t]|]; simpl;
    try (eexists; split; [reflexivity|]; simpl; split; [reflexivity|];
         eexists; split; reflexivity).
  destruct (ZApi.ativo config); simpl;
    [|eexists; split; [reflexivity|]; simpl; split; [reflexivity|];
      eexists; split; reflexivity].
  destruct env as [e|ok [e|[r|]]]; simpl;
    try (eexists; split; [reflexivity|]; simpl; split; [reflexivity|];
         apply Hfail).
  - destruct ok; simpl; eexists; (split; [reflexivity|]); simpl;
      (split; [reflexivity|]); eexists; (split; [reflexivity|]);
      apply or_value_truthy; reflexivity.
  - destruct ok; simpl; eexists; (split; [reflexivity|]); simpl;
      (split; [reflexivity|]); eexists; (split; [reflexivity|]);
      reflexivity.
Qed.

(** * Stock and sales *)

Section Stock.

Local Open Scope Z_scope.

Lemma find_update p q p' rows :
  find (fun r => Z.eqb (Estoque.e_produtoId r) p')
    (Estoque.update_quantidade p q rows)
  = match find (fun r => Z.eqb (Estoque.e_produtoId r) p') rows with
    | Some r =>
        Some (if Z.eqb p' p
              then {| Estoque.e_produtoId := Estoque.e_produtoId r;
                      Estoque.e_quantidade := q |}
              else r)
    | None => None
    end.
Proof.
  induction rows as [|x rows IH]; simpl; [reflexivity|].
  destruct (Z.eqb (Estoque.e_produtoId x) p) eqn:Hx; simpl.
  - destruct (Z.eqb (Estoque.e_produtoId x) p') eqn:Hx'; [|exact IH].
    apply Z.eqb_eq in Hx, Hx'. subst.
    now rewrite Z.eqb_refl.
  - destruct (Z.eqb (Estoque.e_produtoId x) p') eqn:Hx'; [|exact IH].
    apply Z.eqb_eq in Hx'. subst. now rewrite Hx.
Qed.

Lemma update_nonneg p q rows :
  0 <= q ->
  Forall (fun r => 0 <= Estoque.e_quantidade r) rows ->
  Forall (fun r => 0 <= Estoque.e_quantidade r)
    (Estoque.update_quantidade p q rows).
Proof.
  intros Hq Hrows. unfold Estoque.update_quantidade.
  apply Forall_map. apply (Forall_impl _ (P := fun r => 0 <= Estoque.e_quantidade r));
    [|exact Hrows].
  intros r Hr. destruct (Z.eqb (Estoque.e_produtoId r) p); simpl; assumption.
Qed.

Variables (produtoId : Z) (tipo : Estoque.TipoMovimentacao) (quantidade : Z)
  (usuarioId observacao : option string).

(** The two ways [atualizarEstoque] ends. *)
Lemma atualizar_cases st :
  (exists e,
     Estoque.atualizarEstoque produtoId tipo quantidade usuarioId observacao
       st = (Throws e, st)
     /\ (Estoque.handle st = false
           /\ e = {| message := Some "Database not available" |}
         \/ Estoque.handle st = true
            /\ find (fun r => Z.eqb (Estoque.e_produtoId r) produtoId)
                 (Estoque.estoque st) = None
            /\ e = {| message := Some "Produto não encontrado no estoque" |}
         \/ exists r,
              Estoque.handle st = true
              /\ find (fun r => Z.eqb (Estoque.e_produtoId r) produtoId)
                   (Estoque.estoque st) = Some r
              /\ Estoque.novaQuantidade tipo (Estoque.e_quantidade r)
                   quantidade < 0
              /\ e = {| message :=
                          Some "Quantidade insuficiente em estoque" |}))
  \/ (exists r,
        Estoque.handle st = true
        /\ find (fun r => Z.eqb (Estoque.e_produtoId r) produtoId)
             (Estoque.estoque st) = Some r
        /\ 0 <= Estoque.novaQuantidade tipo (Estoque.e_quantidade r)
                  quantidade
        /\ Estoque.atualizarEstoque produtoId tipo quantidade usuarioId
             observacao st
           = (Returns
                {| Estoque.quantidadeAnterior := Estoque.e_quantidade r;
                   Estoque.quantidadeAtual :=
                     Estoque.novaQuantidade tipo (Estoque.e_quantidade r)
                       quantidade |},
              Estoque.add_movimentacao
                (Estoque.movimentacao produtoId tipo quantidade
                   (Estoque.novaQuantidade tipo (Estoque.e_quantidade r)
                      quantidade) usuarioId observacao)
                (Estoque.set_estoque
                   (Estoque.update_quantidade produtoId
                      (Estoque.novaQuantidade tipo (Estoque.e_quantidade r)
                         quantidade) (Estoque.estoque st)) st))).
Proof.
  unfold Estoque.atualizarEstoque, Estoque.getEstoquePorProduto. unfold_eff.
  destruct (Estoque.handle st) eqn:Hh; simpl; rewrite ?Hh; simpl.
  - destruct (find _ (Estoque.estoque st)) as [r|] eqn:Hf; simpl.
    + destruct (Estoque.novaQuantidade tipo (Estoque.e_quantidade r)
                  quantidade <? 0) eqn:Hn; simpl.
      * left. eexists. split; [reflexivity|]. right. right.
        exists r. apply Z.ltb_lt in Hn. auto.
      * right. exists r. apply Z.ltb_ge in Hn. auto.
    + left. eexists. split; [reflexivity|]. right. left. auto.
  - left. eexists. split; [reflexivity|]. left. auto.
Qed.

End Stock.

Section StockAccounting.

Local Open Scope Z_scope.

Variables (produtoId : Z) (tipo : Estoque.TipoMovimentacao) (quantidade : Z)
  (usuarioId observacao : option string).

Lemma saldo_after_update p' nova st r m :
  find (fun r => Z.eqb (Estoque.e_produtoId r) produtoId) (Estoque.estoque st)
  = Some r ->
  Estoque.saldo p'
    (Estoque.add_movimentacao m
       (Estoque.set_estoque
          (Estoque.update_quantidade produtoId nova (Estoque.estoque st)) st))
  = if Z.eqb p' produtoId then nova else Estoque.saldo p' st.
Proof.
  intros Hf. unfold Estoque.saldo. simpl. rewrite find_update.
  destruct (Z.eqb p' produtoId) eqn:Hp.
  - apply Z.eqb_eq in Hp. subst. now rewrite Hf.
  - destruct (find (fun r0 => Z.eqb (Estoque.e_produtoId r0) p')
                (Estoque.estoque st)); reflexivity.
Qed.

(** What a movement that went through did. *)
Lemma atualizar_returns st s st' :
  Estoque.atualizarEstoque produtoId tipo quantidade usuarioId observacao st
  = (Returns s, st') ->
  Estoque.handle st' = true
  /\ Estoque.quantidadeAnterior s = Estoque.saldo produtoId st
  /\ Estoque.quantidadeAtual s
     = Estoque.novaQuantidade tipo (Estoque.saldo produtoId st) quantidade
  /\ 0 <= Estoque.quantidadeAtual s
  /\ (forall p',
        Estoque.saldo p' st'
        = if Z.eqb p' produtoId then Estoque.quantidadeAtual s
          else Estoque.saldo p' st)
  /\ Estoque.movimentacoes st'
     = Estoque.movimentacoes st
       ++ [Estoque.movimentacao produtoId tipo quantidade
             (Estoque.quantidadeAtual s) usuarioId observacao]
  /\ Estoque.estoque st'
     = Estoque.update_quantidade produtoId (Estoque.quantidadeAtual s)
         (Estoque.estoque st)
  /\ Estoque.vendas st' = Estoque.vendas st
  /\ Estoque.itensVenda st' = Estoque.itensVenda st
  /\ Estoque.nextVendaId st' = Estoque.nextVendaId st.
Proof.
  intros Hrun.
  destruct (atualizar_cases produtoId tipo quantidade usuarioId observacao st)
    as [(e & He & _)|(r & Hh & Hf & Hn & Hok)].
  - rewrite He in Hrun. discriminate.
  - rewrite Hok in Hrun. inversion Hrun; subst; clear Hrun. simpl.
    assert (Hs : Estoque.saldo produtoId st = Estoque.e_quantidade r)
      by (unfold Estoque.saldo; now rewrite Hf).
    rewrite Hs. repeat split; auto.
    intros p'. now apply saldo_after_update with (r := r).
Qed.

Lemma atualizar_throws st e st' :
  Estoque.atualizarEstoque produtoId tipo quantidade usuarioId observacao st
  = (Throws e, st') ->
  st' = st.
Proof.
  intros Hrun.
  destruct (atualizar_cases produtoId tipo quantidade usuarioId observacao st)
    as [(e' & He & _)|(r & _ & _ & _ & Hok)];
    rewrite Hrun in *; [now inversion He|discriminate].
Qed.

Lemma atualizar_nonneg st :
  Estoque.estoque_nao_negativo st ->
  Estoque.estoque_nao_negativo
    (snd (Estoque.atualizarEstoque produtoId tipo quantidade usuarioId
            observacao st)).
Proof.
  intros Hst.
  destruct (Estoque.atualizarEstoque produtoId tipo quantidade usuarioId
              observacao st) as [[s|e] st'] eqn:Hrun; simpl.
  - destruct (atualizar_returns st s st' Hrun)
      as (_ & _ & _ & Hn & _ & _ & He & _).
    unfold Estoque.estoque_nao_negativo. rewrite He.
    now apply update_nonneg.
  - now rewrite (atualizar_throws st e st' Hrun).
Qed.

End StockAccounting.

(** X15. A stock movement that is refused changes nothing.  Whenever
    [atualizarEstoque] throws, the store is what it was; it throws
    "Quantidade insuficiente em estoque" for every withdrawal larger than
    the stock of the product, and "Produto não encontrado no estoque" for a
    product without a stock row. *)
Theorem atualizarEstoque_refusals (produtoId quantidade : Z)
  (tipo : Estoque.TipoMovimentacao) (usuarioId observacao : option string)
  (st : Estoque.Store) :
  (forall e,
     fst (Estoque.atualizarEstoque produtoId tipo quantidade usuarioId
            observacao st) = Throws e ->
     snd (Estoque.atualizarEstoque produtoId tipo quantidade usuarioId
            observacao st) = st)
  /\ (forall r,
        Estoque.handle st = true ->
        find (fun r => Z.eqb (Estoque.e_produtoId r) produtoId)
          (Estoque.estoque st) = Some r ->
        (Estoque.e_quantidade r < quantidade)%Z ->
        Estoque.atualizarEstoque produtoId Estoque.saida quantidade
          usuarioId observacao st
        = (Throws {| message := Some "Quantidade insuficiente em estoque" |},
           st))
  /\ (Estoque.handle st = true ->
      find (fun r => Z.eqb (Estoque.e_produtoId r) produtoId)
        (Estoque.estoque st) = None ->
      Estoque.atualizarEstoque produtoId tipo quantidade usuarioId
        observacao st
      = (Throws {| message := Some "Produto não encontrado no estoque" |},
         st)).
Proof.
  split; [|split].
  - intros e He.
    destruct (Estoque.atualizarEstoque produtoId tipo quantidade usuarioId
                observacao st) as [c st'] eqn:Hrun.
    simpl in *. subst c.
    now apply atualizar_throws in Hrun.
  - intros r Hh Hf Hlt.
    destruct (atualizar_cases produtoId Estoque.saida quantidade usuarioId
                observacao st)
      as [(e & He & [(Hh' & _)|[(_ & Hf' & _)|(r' & _ & Hf' & _ & Hmsg)]])
         |(r' & _ & Hf' & Hn & _)]; try congruence.
    rewrite Hf in Hf'. inversion Hf'; subst r'.
    unfold Estoque.novaQuantidade in Hn. lia.
  - intros Hh Hf.
    destruct (atualizar_cases produtoId tipo quantidade usuarioId
                observacao st)
      as [(e & He & [(Hh' & _)|[(_ & _ & Hmsg)|(r' & _ & Hf' & _)]])
         |(r' & _ & Hf' & _)]; congruence.
Qed.

Lemma atualizarEstoque_refusals_witness :
  Estoque.atualizarEstoque 2 Estoque.saida 5 (Some "u1") None
    Estoque.store_exemplo
  = (Throws {| message := Some "Quantidade insuficiente em estoque" |},
     Estoque.store_exemplo).
Proof.
  apply (proj1 (proj2 (atualizarEstoque_refusals 2 5 Estoque.saida
                         (Some "u1") None Estoque.store_exemplo))
           {| Estoque.e_produtoId := 2; Estoque.e_quantidade := 3 |});
    reflexivity.
Defined.

(** X16. A stock movement that goes through is accounted for.  For a
    stock and a quantity that are safe integers with a safe integer as
    their sum (entry) or difference (withdrawal): the value returned gives
    the stock of the product before and after; the stock after is the stock
    before plus the quantity for an entry, minus it for a withdrawal, is not
    negative and is a safe integer; it is what a later read of the product
    finds; the stock of every other product is untouched; and exactly one
    movement is recorded, with the new stock in it. *)
Theorem atualizarEstoque_accounting (produtoId quantidade : Z)
  (tipo : Estoque.TipoMovimentacao) (usuarioId observacao : option string)
  (st : Estoque.Store) (s : Estoque.Saldo) :
  Estoque.safe_integer (Estoque.saldo produtoId st) ->
  Estoque.safe_integer quantidade ->
  Estoque.safe_integer
    (Estoque.novaQuantidade tipo (Estoque.saldo produtoId st) quantidade) ->
  fst (Estoque.atualizarEstoque produtoId tipo quantidade usuarioId
         observacao st) = Returns s ->
  let st' := snd (Estoque.atualizarEstoque produtoId tipo quantidade
                    usuarioId observacao st) in
  Estoque.quantidadeAnterior s = Estoque.saldo produtoId st
  /\ Estoque.quantidadeAtual s = Estoque.saldo produtoId st'
  /\ Estoque.quantidadeAtual s
     = match tipo with
       | Estoque.entrada => (Estoque.quantidadeAnterior s + quantidade)%Z
       | Estoque.saida => (Estoque.quantidadeAnterior s - quantidade)%Z
       end
  /\ (0 <= Estoque.quantidadeAtual s)%Z
  /\ Estoque.safe_integer (Estoque.quantidadeAtual s)
  /\ (forall p', p' <> produtoId ->
                 Estoque.saldo p' st' = Estoque.saldo p' st)
  /\ Estoque.movimentacoes st'
     = Estoque.movimentacoes st
       ++ [{| Estoque.mv_produtoId := produtoId;
              Estoque.mv_tipo := tipo;
              Estoque.mv_quantidade := quantidade;
              Estoque.mv_quantidadeAtual := Estoque.quantidadeAtual s;
              Estoque.mv_observacao := observacao;
              Estoque.mv_usuarioId := usuarioId |}].
Proof.
  intros Hsafe_a Hsafe_q Hsafe_n Hret st'. subst st'.
  destruct (Estoque.atualizarEstoque produtoId tipo quantidade usuarioId
              observacao st) as [c st'] eqn:Hrun.
  simpl in *. subst c.
  destruct (atualizar_returns produtoId tipo quantidade usuarioId observacao
              st s st' Hrun)
    as (_ & Hant & Hatual & Hn & Hs & Hm & _).
  split; [exact Hant|].
  split; [now rewrite Hs, Z.eqb_refl|].
  split; [rewrite Hatual, Hant; destruct tipo; reflexivity|].
  split; [exact Hn|].
  split; [now rewrite Hatual|].
  split; [|exact Hm].
  intros p' Hp. rewrite Hs.
  destruct (Z.eqb p' produtoId) eqn:E; [|reflexivity].
  apply Z.eqb_eq in E. contradiction.
Qed.

Lemma atualizarEstoque_accounting_witness :
  Estoque.saldo 1
    (snd (Estoque.atualizarEstoque 1 Estoque.saida 5 (Some "u1") None
            Estoque.store_exemplo)) = 7%Z.
Proof.
  assert (H12 : Estoque.safe_integer (Estoque.saldo 1 Estoque.store_exemplo))
    by (vm_compute; split; discriminate).
  assert (H5 : Estoque.safe_integer 5)
    by (vm_compute; split; discriminate).
  assert (H7 : Estoque.safe_integer
                 (Estoque.novaQuantidade Estoque.saida
                    (Estoque.saldo 1 Estoque.store_exemplo) 5))
    by (vm_compute; split; discriminate).
  destruct (atualizarEstoque_accounting 1 5 Estoque.saida (Some "u1") None
              Estoque.store_exemplo
              {| Estoque.quantidadeAnterior := 12;
                 Estoque.quantidadeAtual := 7 |} H12 H5 H7 eq_refl)
    as (_ & Hs & _).
  symmetry. exact Hs.
Defined.

Section Sales.

Local Open Scope Z_scope.

Variables (vendaId : Z) (usuarioId : option string).

Lemma baixar_cons item rest st :
  Estoque.baixar_itens vendaId usuarioId (item :: rest) st
  = match Estoque.atualizarEstoque (Estoque.i_produtoId item) Estoque.saida
            (Estoque.i_quantidade item) (Estoque.or_undefined usuarioId)
            (Some (Estoque.observacao_venda vendaId))
            (Estoque.add_itemVenda (Estoque.item_da_venda vendaId item) st)
    with
    | (Returns _, st') => Estoque.baixar_itens vendaId usuarioId rest st'
    | (Throws e, st') => (Throws e, st')
    end.
Proof. reflexivity. Qed.

Lemma saldo_add_item p i st :
  Estoque.saldo p (Estoque.add_itemVenda i st) = Estoque.saldo p st.
Proof. reflexivity. Qed.

(** What the loop of [createVenda] leaves behind, by the way it ends. *)
Lemma baixar_outcome itens : forall st,
  let out := Estoque.baixar_itens vendaId usuarioId itens st in
  Estoque.vendas (snd out) = Estoque.vendas st
  /\ (Estoque.estoque_nao_negativo st ->
      Estoque.estoque_nao_negativo (snd out))
  /\ match fst out with
     | Returns _ =>
         Estoque.itensVenda (snd out)
         = Estoque.itensVenda st
           ++ map (Estoque.item_da_venda vendaId) itens
         /\ length (Estoque.movimentacoes (snd out))
            = (length (Estoque.movimentacoes st) + length itens)%nat
         /\ forall p,
              Estoque.saldo p (snd out)
              = Estoque.saldo p st - Estoque.quantidade_vendida p itens
     | Throws _ =>
         exists k,
           (k < length itens)%nat
           /\ Estoque.itensVenda (snd out)
              = Estoque.itensVenda st
                ++ map (Estoque.item_da_venda vendaId) (firstn (S k) itens)
           /\ length (Estoque.movimentacoes (snd out))
              = (length (Estoque.movimentacoes st) + k)%nat
     end.
Proof.
  induction itens as [|item rest IH]; intros st out; subst out.
  - simpl. split; [reflexivity|]. split; [auto|].
    rewrite app_nil_r. split; [reflexivity|]. split; [lia|].
    intros p. lia.
  - rewrite baixar_cons.
    set (st0 := Estoque.add_itemVenda (Estoque.item_da_venda vendaId item) st).
    destruct (Estoque.atualizarEstoque (Estoque.i_produtoId item)
                Estoque.saida (Estoque.i_quantidade item)
                (Estoque.or_undefined usuarioId)
                (Some (Estoque.observacao_venda vendaId)) st0)
      as [[s|e] st1] eqn:Hrun.
    + pose proof (atualizar_nonneg (Estoque.i_produtoId item) Estoque.saida
                    (Estoque.i_quantidade item)
                    (Estoque.or_undefined usuarioId)
                    (Some (Estoque.observacao_venda vendaId)) st0) as Hnn.
      rewrite Hrun in Hnn. simpl in Hnn.
      destruct (atualizar_returns _ _ _ _ _ st0 s st1 Hrun)
        as (_ & _ & Hatual & _ & Hs & Hm & _ & Hv & Hi & _).
      destruct (IH st1) as (IHv & IHn & IHout).
      split; [rewrite IHv, Hv; reflexivity|].
      split; [intros Hst; apply IHn, Hnn; exact Hst|].
      destruct (fst (Estoque.baixar_itens vendaId usuarioId rest st1)).
      * destruct IHout as (IHi & IHm & IHs).
        split; [rewrite IHi, Hi; unfold st0; simpl;
                rewrite <- app_assoc; reflexivity|].
        split; [rewrite IHm, Hm, length_app; simpl; unfold st0; simpl; lia|].
        intros p. rewrite IHs, Hs, Hatual. unfold Estoque.novaQuantidade.
        unfold st0. rewrite !saldo_add_item. simpl.
        rewrite (Z.eqb_sym (Estoque.i_produtoId item) p).
        destruct (Z.eqb p (Estoque.i_produtoId item)) eqn:Hp; [|lia].
        apply Z.eqb_eq in Hp. subst p. lia.
      * destruct IHout as (k & Hk & IHi & IHm).
        exists (S k). split; [simpl; lia|].
        split; [rewrite IHi, Hi; unfold st0; simpl;
                rewrite <- app_assoc; reflexivity|].
        rewrite IHm, Hm, length_app. simpl. unfold st0. simpl. lia.
    + apply atualizar_throws in Hrun. subst st1. simpl.
      split; [reflexivity|]. split; [auto|].
      exists 0%nat. split; [simpl; lia|].
      split; [reflexivity|]. unfold st0. simpl. lia.
Qed.

End Sales.

Section SafeQuantities.

Local Open Scope Z_scope.

Lemma update_Forall (P : Z -> Prop) p q rows :
  P q ->
  Forall (fun r => P (Estoque.e_quantidade r)) rows ->
  Forall (fun r => P (Estoque.e_quantidade r))
    (Estoque.update_quantidade p q rows).
Proof.
  intros Hq Hrows. unfold Estoque.update_quantidade.
  apply Forall_map.
  apply (Forall_impl _ (P := fun r => P (Estoque.e_quantidade r)));
    [|exact Hrows].
  intros r Hr. destruct (Z.eqb (Estoque.e_produtoId r) p); simpl; assumption.
Qed.

Lemma saldo_seguro p st :
  Estoque.estoque_seguro st -> Estoque.safe_integer (Estoque.saldo p st).
Proof.
  unfold Estoque.estoque_seguro, Estoque.saldo. intros Hst.
  destruct (find _ (Estoque.estoque st)) as [r|] eqn:Hf.
  - apply find_some in Hf as [Hin _].
    rewrite Forall_forall in Hst. now apply Hst.
  - vm_compute. split; discriminate.
Qed.

Variables (vendaId : Z) (usuarioId : option string).

(** No quantity leaves the safe integers in the loop of [createVenda]. *)
Lemma baixar_seguro itens : forall st,
  Estoque.estoque_seguro st ->
  Estoque.itens_seguros itens ->
  Estoque.estoque_seguro
    (snd (Estoque.baixar_itens vendaId usuarioId itens st)).
Proof.
  induction itens as [|item rest IH]; intros st Hst Hitens; [exact Hst|].
  inversion Hitens as [|? ? Hq Hrest]; subst.
  rewrite baixar_cons.
  set (st0 := Estoque.add_itemVenda (Estoque.item_da_venda vendaId item) st).
  assert (Hst0 : Estoque.estoque_seguro st0) by exact Hst.
  destruct (Estoque.atualizarEstoque (Estoque.i_produtoId item)
              Estoque.saida (Estoque.i_quantidade item)
              (Estoque.or_undefined usuarioId)
              (Some (Estoque.observacao_venda vendaId)) st0)
    as [[s|e] st1] eqn:Hrun.
  - destruct (atualizar_returns _ _ _ _ _ st0 s st1 Hrun)
      as (_ & _ & Hatual & Hn & _ & _ & He & _).
    apply IH; [|exact Hrest].
    unfold Estoque.estoque_seguro. rewrite He.
    apply update_Forall; [|exact Hst0].
    pose proof (saldo_seguro (Estoque.i_produtoId item) st0 Hst0) as Hs.
    unfold Estoque.safe_integer, Estoque.MAX_SAFE_INTEGER in *.
    simpl in Hatual. lia.
  - apply atualizar_throws in Hrun. subst st1. exact Hst0.
Qed.

(** With the database at hand the loop throws for a stock reason only. *)
Lemma baixar_throws_reason itens : forall st e,
  Estoque.handle st = true ->
  fst (Estoque.baixar_itens vendaId usuarioId itens st) = Throws e ->
  e = {| message := Some "Produto não encontrado no estoque" |}
  \/ e = {| message := Some "Quantidade insuficiente em estoque" |}.
Proof.
  induction itens as [|item rest IH]; intros st e Hh; [discriminate|].
  rewrite baixar_cons.
  set (st0 := Estoque.add_itemVenda (Estoque.item_da_venda vendaId item) st).
  assert (Hh0 : Estoque.handle st0 = true) by exact Hh.
  destruct (atualizar_cases (Estoque.i_produtoId item) Estoque.saida
              (Estoque.i_quantidade item) (Estoque.or_undefined usuarioId)
              (Some (Estoque.observacao_venda vendaId)) st0)
    as [(e' & He' & [(Hf & _)|[(_ & _ & Hmsg)|(r & _ & _ & _ & Hmsg)]])
       |(r & _ & _ & _ & Hok)].
  - congruence.
  - rewrite He'. simpl. intros Hthrow. inversion Hthrow; subst. now left.
  - rewrite He'. simpl. intros Hthrow. inversion Hthrow; subst. now right.
  - rewrite Hok. apply IH. simpl. exact Hh.
Qed.

End SafeQuantities.

Lemma createVenda_unfold venda itens st :
  Estoque.handle st = true ->
  Estoque.createVenda venda itens st
  = match Estoque.baixar_itens (Estoque.nextVendaId st)
            (Estoque.v_usuarioId venda) itens (Estoque.add_venda venda st)
    with
    | (Returns _, st') => (Returns (Estoque.nextVendaId st), st')
    | (Throws e, st') => (Throws e, st')
    end.
Proof.
  intros Hh. unfold Estoque.createVenda. unfold_eff. rewrite Hh. simpl.
  destruct (Estoque.baixar_itens _ _ _ _) as [[?|?] ?]; reflexivity.
Qed.

(** X17. A sale that goes through lowers the stock by what was sold.  For
    stock rows that hold safe integers and items whose quantities lie
    between 0 and the largest safe integer: when [createVenda] returns, it
    returns the identifier of the sale row it inserted; one item row per
    item was inserted, in order, each with that identifier; one stock
    movement per item was recorded; the stock of every product is what it
    was minus the total quantity of that product in the sale; and every
    stock row still holds a safe integer. *)
Theorem createVenda_lowers_stock (venda : Estoque.InsertVenda)
  (itens : list Estoque.Item) (st : Estoque.Store) (id : Z) :
  Estoque.estoque_seguro st ->
  Estoque.itens_seguros itens ->
  fst (Estoque.createVenda venda itens st) = Returns id ->
  let st' := snd (Estoque.createVenda venda itens st) in
  id = Estoque.nextVendaId st
  /\ Estoque.vendas st' = Estoque.vendas st ++ [(id, venda)]
  /\ Estoque.itensVenda st'
     = Estoque.itensVenda st
       ++ map (fun item => {| Estoque.iv_item := item;
                              Estoque.iv_vendaId := id |}) itens
  /\ length (Estoque.movimentacoes st')
     = length (Estoque.movimentacoes st) + length itens
  /\ (forall p,
        Estoque.saldo p st'
        = (Estoque.saldo p st - Estoque.quantidade_vendida p itens)%Z)
  /\ Estoque.estoque_seguro st'.
Proof.
  intros Hseg Hitens.
  destruct (Estoque.handle st) eqn:Hh.
  - rewrite createVenda_unfold by exact Hh.
    pose proof (baixar_outcome (Estoque.nextVendaId st)
                  (Estoque.v_usuarioId venda) itens
                  (Estoque.add_venda venda st)) as Hout.
    pose proof (baixar_seguro (Estoque.nextVendaId st)
                  (Estoque.v_usuarioId venda) itens
                  (Estoque.add_venda venda st) Hseg Hitens) as Hsafe.
    cbv zeta in Hout.
    destruct (Estoque.baixar_itens _ _ _ _) as [[u|e] st1]; simpl in *;
      [|discriminate].
    intros Hid. inversion Hid; subst id.
    destruct Hout as (Hv & _ & Hi & Hm & Hs).
    repeat split; auto.
  - unfold Estoque.createVenda. unfold_eff. rewrite Hh. discriminate.
Qed.

Lemma createVenda_lowers_stock_witness :
  Estoque.saldo 1
    (snd (Estoque.createVenda Estoque.venda_exemplo
            [Estoque.item_exemplo 1 5; Estoque.item_exemplo 2 3;
             Estoque.item_exemplo 1 2] Estoque.store_exemplo))
  = (Estoque.saldo 1 Estoque.store_exemplo - 7)%Z.
Proof.
  assert (Hst : Estoque.estoque_seguro Estoque.store_exemplo)
    by (repeat constructor; discriminate).
  assert (Hit : Estoque.itens_seguros
                  [Estoque.item_exemplo 1 5; Estoque.item_exemplo 2 3;
                   Estoque.item_exemplo 1 2])
    by (repeat constructor; discriminate).
  destruct (createVenda_lowers_stock Estoque.venda_exemplo
              [Estoque.item_exemplo 1 5; Estoque.item_exemplo 2 3;
               Estoque.item_exemplo 1 2] Estoque.store_exemplo 41
              Hst Hit eq_refl)
    as (_ & _ & _ & _ & Hs & _).
  exact (Hs 1%Z).
Defined.

(** X18. A sale is not undone when it fails.  With the database available
    and every statement sent to it carried out, [createVenda] throws only
    because a stock movement was refused (product without stock row, or
    quantity above the stock), and then: the sale row is already inserted;
    the items before the refused one were inserted and their stock lowered;
    the refused item was inserted without a stock movement; and the items
    after it were not looked at. *)
Theorem createVenda_failure_leaves_rows (venda : Estoque.InsertVenda)
  (itens : list Estoque.Item) (st : Estoque.Store) (e : JsError) :
  Estoque.handle st = true ->
  fst (Estoque.createVenda venda itens st) = Throws e ->
  let st' := snd (Estoque.createVenda venda itens st) in
  (e = {| message := Some "Produto não encontrado no estoque" |}
   \/ e = {| message := Some "Quantidade insuficiente em estoque" |})
  /\ Estoque.vendas st'
     = Estoque.vendas st ++ [(Estoque.nextVendaId st, venda)]
  /\ exists k,
       k < length itens
       /\ Estoque.itensVenda st'
          = Estoque.itensVenda st
            ++ map (fun item =>
                      {| Estoque.iv_item := item;
                         Estoque.iv_vendaId := Estoque.nextVendaId st |})
                (firstn (S k) itens)
       /\ length (Estoque.movimentacoes st')
          = length (Estoque.movimentacoes st) + k.
Proof.
  intros Hh. rewrite createVenda_unfold by exact Hh.
  pose proof (baixar_outcome (Estoque.nextVendaId st)
                (Estoque.v_usuarioId venda) itens
                (Estoque.add_venda venda st)) as Hout.
  pose proof (baixar_throws_reason (Estoque.nextVendaId st)
                (Estoque.v_usuarioId venda) itens
                (Estoque.add_venda venda st)) as Hwhy.
  cbv zeta in Hout.
  destruct (Estoque.baixar_itens _ _ _ _) as [[u|e'] st1]; simpl in *;
    [discriminate|].
  intros He. inversion He; subst e'.
  destruct Hout as (Hv & _ & k & Hk & Hi & Hm).
  split; [apply Hwhy; [exact Hh|reflexivity]|].
  split; [exact Hv|]. exists k. auto.
Qed.

Lemma createVenda_failure_leaves_rows_witness :
  exists k,
    k < 3
    /\ length (Estoque.movimentacoes
                 (snd (Estoque.createVenda Estoque.venda_exemplo
                         [Estoque.item_exemplo 1 5; Estoque.item_exemplo 2 5;
                          Estoque.item_exemplo 1 1] Estoque.store_exemplo)))
       = 0 + k.
Proof.
  destruct (createVenda_failure_leaves_rows Estoque.venda_exemplo
              [Estoque.item_exemplo 1 5; Estoque.item_exemplo 2 5;
               Estoque.item_exemplo 1 1] Estoque.store_exemplo
              {| message := Some "Quantidade insuficiente em estoque" |}
              eq_refl eq_refl)
    as (_ & _ & k & Hk & _ & Hm).
  exists k. split; [exact Hk|exact Hm].
Defined.

(** X19. The stock never goes below zero.  If no stock row is negative,
    none is after [atualizarEstoque] or after [createVenda], whatever their
    arguments (a negative quantity included) and however they end. *)
Theorem stock_never_negative (st : Estoque.Store) :
  Estoque.estoque_nao_negativo st ->
  (forall produtoId tipo quantidade usuarioId observacao,
     Estoque.estoque_nao_negativo
       (snd (Estoque.atualizarEstoque produtoId tipo quantidade usuarioId
               observacao st)))
  /\ (forall venda itens,
        Estoque.estoque_nao_negativo
          (snd (Estoque.createVenda venda itens st))).
Proof.
  intros Hst. split.
  - intros. now apply atualizar_nonneg.
  - intros venda itens.
    destruct (Estoque.handle st) eqn:Hh.
    + rewrite createVenda_unfold by exact Hh.
      pose proof (baixar_outcome (Estoque.nextVendaId st)
                    (Estoque.v_usuarioId venda) itens
                    (Estoque.add_venda venda st)) as Hout.
      cbv zeta in Hout. destruct Hout as (_ & Hnn & _).
      destruct (Estoque.baixar_itens _ _ _ _) as [[u|e] st1]; simpl in *;
        apply Hnn; exact Hst.
    + unfold Estoque.createVenda. unfold_eff. rewrite Hh. exact Hst.
Qed.

Lemma stock_never_negative_witness :
  Estoque.estoque_nao_negativo
    (snd (Estoque.atualizarEstoque 1 Estoque.entrada (-20) None None
            Estoque.store_exemplo)).
Proof.
  apply (proj1 (stock_never_negative Estoque.store_exemplo
                  ltac:(repeat constructor; simpl; lia))).
Defined.

Lemma atualizar_succeeds produtoId tipo quantidade usuarioId observacao st r :
  Estoque.handle st = true ->
  find (fun r => Z.eqb (Estoque.e_produtoId r) produtoId) (Estoque.estoque st)
  = Some r ->
  (0 <= Estoque.novaQuantidade tipo (Estoque.e_quantidade r) quantidade)%Z ->
  exists s st',
    Estoque.atualizarEstoque produtoId tipo quantidade usuarioId observacao st
    = (Returns s, st').
Proof.
  intros Hh Hf Hn.
  destruct (atualizar_cases produtoId tipo quantidade usuarioId observacao st)
    as [(e & He & [(Hh' & _)|[(_ & Hf' & _)|(r' & _ & Hf' & Hn' & _)]])
       |(r' & _ & _ & _ & Hok)]; try congruence.
  - rewrite Hf in Hf'. inversion Hf'; subst r'. lia.
  - eauto.
Qed.

(** X20. An entry followed by a withdrawal of the same quantity gives the
    stock back.  For a product with a stock row that is not negative, a
    quantity that is not negative and a sum of the two that is a safe
    integer, and with every statement sent to the database carried out:
    both movements go through, the second returns as its new stock what the
    first returned as its old one, and the stock of every product is then
    what it was at the start. *)
Theorem entrada_then_saida_restores (produtoId quantidade : Z)
  (usuarioId observacao usuarioId' observacao' : option string)
  (st : Estoque.Store) (r : Estoque.EstoqueRow) :
  Estoque.handle st = true ->
  find (fun r => Z.eqb (Estoque.e_produtoId r) produtoId) (Estoque.estoque st)
  = Some r ->
  (0 <= Estoque.e_quantidade r)%Z ->
  (0 <= quantidade)%Z ->
  Estoque.safe_integer (Estoque.e_quantidade r + quantidade) ->
  exists s1 st1 s2 st2,
    Estoque.atualizarEstoque produtoId Estoque.entrada quantidade usuarioId
      observacao st = (Returns s1, st1)
    /\ Estoque.atualizarEstoque produtoId Estoque.saida quantidade usuarioId'
         observacao' st1 = (Returns s2, st2)
    /\ Estoque.quantidadeAtual s2 = Estoque.quantidadeAnterior s1
    /\ (forall p, Estoque.saldo p st2 = Estoque.saldo p st)
    /\ length (Estoque.movimentacoes st2)
       = length (Estoque.movimentacoes st) + 2.
Proof.
  intros Hh Hf Hr Hq Hsafe.
  assert (Hsaldo : Estoque.saldo produtoId st = Estoque.e_quantidade r)
    by (unfold Estoque.saldo; now rewrite Hf).
  destruct (atualizar_succeeds produtoId Estoque.entrada quantidade usuarioId
              observacao st r Hh Hf) as (s1 & st1 & Hrun1);
    [simpl; lia|].
  destruct (atualizar_returns _ _ _ _ _ st s1 st1 Hrun1)
    as (Hh1 & Hant1 & Hat1 & Hn1 & Hs1 & Hm1 & He1 & _).
  assert (Hf1 : find (fun r => Z.eqb (Estoque.e_produtoId r) produtoId)
                  (Estoque.estoque st1)
                = Some {| Estoque.e_produtoId := Estoque.e_produtoId r;
                          Estoque.e_quantidade := Estoque.quantidadeAtual s1 |}).
  { rewrite He1, find_update, Hf, Z.eqb_refl. reflexivity. }
  simpl in Hat1.
  destruct (atualizar_succeeds produtoId Estoque.saida quantidade usuarioId'
              observacao' st1 _ Hh1 Hf1) as (s2 & st2 & Hrun2);
    [simpl; lia|].
  destruct (atualizar_returns _ _ _ _ _ st1 s2 st2 Hrun2)
    as (_ & Hant2 & Hat2 & _ & Hs2 & Hm2 & _).
  simpl in Hat2.
  assert (Hback : Estoque.quantidadeAtual s2 = Estoque.saldo produtoId st).
  { rewrite Hat2, Hs1, Z.eqb_refl, Hat1. lia. }
  exists s1, st1, s2, st2.
  split; [exact Hrun1|]. split; [exact Hrun2|].
  split; [now rewrite Hback, Hant1|].
  split.
  - intros p. rewrite Hs2.
    destruct (Z.eqb p produtoId) eqn:Hp.
    + apply Z.eqb_eq in Hp. subst p. exact Hback.
    + now rewrite Hs1, Hp.
  - rewrite Hm2, length_app, Hm1, length_app. simpl. lia.
Qed.

Lemma entrada_then_saida_restores_witness :
  exists s1 st1 s2 st2,
    Estoque.atualizarEstoque 2 Estoque.entrada 10 (Some "u1") None
      Estoque.store_exemplo = (Returns s1, st1)
    /\ Estoque.atualizarEstoque 2 Estoque.saida 10 None None st1
       = (Returns s2, st2)
    /\ Estoque.saldo 2 st2 = 3%Z.
Proof.
  destruct (entrada_then_saida_restores 2 10 (Some "u1") None None None
              Estoque.store_exemplo
              {| Estoque.e_produtoId := 2; Estoque.e_quantidade := 3 |}
              eq_refl eq_refl)
    as (s1 & st1 & s2 & st2 & H1 & H2 & _ & Hs & _).
  - simpl. lia.
  - lia.
  - vm_compute. split; discriminate.
  - exists s1, st1, s2, st2. split; [exact H1|]. split; [exact H2|].
    exact (Hs 2%Z).
Defined.

(** * Users *)

(** X21. [upsertUser] checks its argument before anything else and
    tolerates a missing database: without an identifier (absent or empty)
    it throws "User ID is required for upsert", and with one but no
    database handle it returns; in both cases no statement is sent. *)
Theorem upsertUser_guards (ownerId : option string) (now : Z)
  (insert_throws : option JsError) (user : Users.InsertUser)
  (st : Users.Store) :
  (Js.truthy (Users.id user) = false ->
   Users.upsertUser ownerId now insert_throws user st
   = (Throws {| message := Some "User ID is required for upsert" |}, st))
  /\ (Js.truthy (Users.id user) = true ->
      Users.handle st = false ->
      Users.upsertUser ownerId now insert_throws user st = (Returns tt, st)).
Proof.
  unfold Users.upsertUser. unfold_eff. split.
  - intros ->. reflexivity.
  - intros Hid Hh. rewrite Hid. simpl. rewrite Hh. reflexivity.
Qed.

Lemma upsertUser_guards_witness :
  Users.upsertUser (Some "owner") 0 None
    {| Users.id := Some ""; Users.name := Some (Some "Ana");
       Users.email := None; Users.loginMethod := None;
       Users.lastSignedIn := None; Users.role := None |}
    {| Users.handle := true; Users.statements := [] |}
  = (Throws {| message := Some "User ID is required for upsert" |},
     {| Users.handle := true; Users.statements := [] |}).
Proof.
  apply (proj1 (upsertUser_guards (Some "owner") 0 None
                  {| Users.id := Some ""; Users.name := Some (Some "Ana");
                     Users.email := None; Users.loginMethod := None;
                     Users.lastSignedIn := None; Users.role := None |}
                  {| Users.handle := true; Users.statements := [] |})).
  reflexivity.
Defined.

(** X22. What [upsertUser] sends.  With an identifier and a database it
    sends exactly one statement, also when the statement then fails.  Its
    update clause is never empty: when the argument sets no column it
    updates [lastSignedIn] to the current time.  The role it writes is
    "admin" or nothing, and it is nothing whenever the argument names a
    role: a role given by the caller is never written. *)
Theorem upsertUser_statement (ownerId : option string) (now : Z)
  (insert_throws : option JsError) (user : Users.InsertUser)
  (st : Users.Store) :
  Js.truthy (Users.id user) = true ->
  Users.handle st = true ->
  exists uid stmt,
    Users.id user = Some uid
    /\ Users.statements
         (snd (Users.upsertUser ownerId now insert_throws user st))
       = Users.statements st ++ [stmt]
    /\ Users.v_id (Users.values stmt) = uid
    /\ 1 <= Users.keys (Users.updateSet stmt)
    /\ (Users.keys {| Users.u_name := Users.name user;
                      Users.u_email := Users.email user;
                      Users.u_loginMethod := Users.loginMethod user;
                      Users.u_lastSignedIn := Users.lastSignedIn user;
                      Users.u_role := Users.u_role (Users.updateSet stmt) |}
        = 0 ->
        Users.u_lastSignedIn (Users.updateSet stmt) = Some now)
    /\ Users.v_role (Users.values stmt) = Users.u_role (Users.updateSet stmt)
    /\ (Users.v_role (Users.values stmt) = None
        \/ Users.v_role (Users.values stmt) = Some "admin"
           /\ Users.role user = None /\ ownerId = Some uid)
    /\ (Users.role user <> None -> Users.v_role (Users.values stmt) = None)
    /\ fst (Users.upsertUser ownerId now insert_throws user st)
       = match insert_throws with
         | Some e => Throws e
         | None => Returns tt
         end.
Proof.
  intros Hid Hh.
  destruct (Users.id user) as [[|c uid]|] eqn:Huid; try discriminate.
  exists (String c uid).
  exists (Users.build ownerId now (String c uid) user).
  split; [reflexivity|].
  assert (Hrun :
    Users.upsertUser ownerId now insert_throws user st
    = (match insert_throws with
       | Some e => Throws e
       | None => Returns tt
       end,
       {| Users.handle := Users.handle st;
          Users.statements :=
            Users.statements st
            ++ [Users.build ownerId now (String c uid) user] |})).
  { unfold Users.upsertUser. unfold_eff. rewrite Huid. simpl.
    rewrite Hh. simpl. destruct insert_throws; rewrite ?Hh; reflexivity. }
  rewrite Hrun. cbn [fst snd Users.statements].
  split; [reflexivity|]. split; [reflexivity|].
  set (admin :=
         match Users.role user with
         | Some _ => None
         | None =>
             match ownerId with
             | Some owner =>
                 if String.eqb (String c uid) owner then Some "admin"
                 else None
             | None => None
             end
         end).
  assert (Hv : Users.v_role
                 (Users.values (Users.build ownerId now (String c uid) user))
               = admin) by reflexivity.
  assert (Hu : Users.u_role
                 (Users.updateSet
                    (Users.build ownerId now (String c uid) user))
               = admin).
  { unfold Users.build. cbn [Users.updateSet].
    destruct (Nat.eqb _ 0); reflexivity. }
  rewrite Hv, Hu.
  split.
  { unfold Users.build. cbn [Users.updateSet]. fold admin.
    match goal with
    | |- context [Nat.eqb ?k 0] => destruct (Nat.eqb k 0) eqn:Hk
    end.
    - unfold Users.keys, Users.present. cbn. lia.
    - apply Nat.eqb_neq in Hk. lia. }
  split.
  { unfold Users.build. cbn [Users.updateSet]. fold admin. intros Hk.
    rewrite Hk. reflexivity. }
  split; [reflexivity|].
  split.
  { unfold admin.
    destruct (Users.role user); [now left|].
    destruct ownerId as [owner|]; [|now left].
    destruct (String.eqb (String c uid) owner) eqn:Ho; [|now left].
    apply String.eqb_eq in Ho. subst owner. right. auto. }
  split; [|reflexivity].
  intros Hr. unfold admin.
  destruct (Users.role user); [reflexivity|contradiction].
Qed.

Lemma upsertUser_statement_witness :
  exists uid stmt,
    Some "u7" = Some uid
    /\ Users.statements
         (snd (Users.upsertUser (Some "owner") 99 None
                 {| Users.id := Some "u7"; Users.name := None;
                    Users.email := None; Users.loginMethod := None;
                    Users.lastSignedIn := None; Users.role := Some "admin" |}
                 {| Users.handle := true; Users.statements := [] |}))
       = [stmt]
    /\ Users.v_role (Users.values stmt) = None
    /\ Users.u_lastSignedIn (Users.updateSet stmt) = Some 99%Z.
Proof.
  destruct (upsertUser_statement (Some "owner") 99 None
              {| Users.id := Some "u7"; Users.name := None;
                 Users.email := None; Users.loginMethod := None;
                 Users.lastSignedIn := None; Users.role := Some "admin" |}
              {| Users.handle := true; Users.statements := [] |}
              eq_refl eq_refl)
    as (uid & stmt & Hid & Hst & _ & _ & Hnow & Hvu & _ & Hrole & _).
  assert (Hv : Users.v_role (Users.values stmt) = None)
    by (apply Hrole; discriminate).
  exists uid, stmt. split; [exact Hid|]. split; [exact Hst|].
  split; [exact Hv|].
  apply Hnow. rewrite <- Hvu, Hv. reflexivity.
Defined.
